(** * Movie search and favorites service: shallow embedding and checked properties

    The development embeds
    - [backend/src/movies/movies.service.ts] (class [MoviesService]): the
      favorites store backed by [data/favorites.json], the OMDb search client
      and the favorite-tagging search;
    - the [getNextPageParam] callback of [useSearchMovies] in the frontend hook
      file [hooks/useMovies.ts].

    Modelling choices.
    - A JavaScript string is the list of its UTF-16 code units ([list N]);
      literals are written [js "..."].
    - A JavaScript [number] received as an argument is a rational, [NaN] or an
      infinity (every double is one of these).  After the guards
      [page < 1 || !Number.isInteger(page)] the value is an integer and the
      arithmetic is done in [Z]; on arrays (length below 2^32) the results of
      [slice] and of the comparisons agree with the double arithmetic.
    - The service is an object with one mutable field, [favorites]; the file
      system holds at most one relevant file.  Both are threaded through a state
      and exception monad [M]; [try_catch] keeps the state reached when the
      exception was thrown, as JavaScript does.
    - [JSON.stringify]/[JSON.parse] are taken as a codec that round-trips an
      array of [MovieDto]: a file either holds such an array ([Parsed]) or holds
      text on which reading or parsing throws ([Unparseable]).  Text that parses
      to another JSON value contradicts the declared type [MovieDto[]] of the
      field and is not represented.
    - The outcome of the one outbound [axios.get] is an argument of
      [searchMovies].  An answer of the provider has the declared shape
      [OmdbSearchResponse]; JSON of another shape (a [Search] field that is
      not an array of such items) is not represented. *)

From Stdlib Require Import ZArith QArith Ascii String DecimalString List Lia.
From Stdlib Require Import DecimalPos DecimalZ.
From stdpp Require Import base decidable option numbers list gmap sets.

Open Scope Z_scope.

(** ** JavaScript strings *)

Module JS.

(** A string is its sequence of UTF-16 code units. *)
Abbreviation jsstring := (list N).

(** A literal with characters below U+0100. *)
Definition js (s : string) : jsstring :=
  N_of_ascii <$> list_ascii_of_string s.

(** [a === b] on strings. *)
Definition str_eq (a b : jsstring) : bool := bool_decide (a = b).

(** In a condition a string is falsy exactly when it is empty. *)
Definition truthy (s : jsstring) : bool :=
  match s with [] => false | _ :: _ => true end.

(** ECMAScript [WhiteSpace] and [LineTerminator] code points, the characters
    removed by [String.prototype.trim] and skipped by [parseInt]. *)
Definition is_whitespace (c : N) : bool :=
  ((9 <=? c) && (c <=? 13) || (c =? 32) || (c =? 160) || (c =? 5760)
   || (8192 <=? c) && (c <=? 8202)
   || (c =? 8232) || (c =? 8233) || (c =? 8239) || (c =? 8287)
   || (c =? 12288) || (c =? 65279))%N.

Fixpoint trimStart (s : jsstring) : jsstring :=
  match s with
  | [] => []
  | c :: rest => if is_whitespace c then trimStart rest else s
  end.

Definition trimEnd (s : jsstring) : jsstring :=
  reverse (trimStart (reverse s)).

Definition trim (s : jsstring) : jsstring := trimEnd (trimStart s).

(** [s.length] as a number. *)
Definition str_length (s : jsstring) : Z := Z.of_nat (length s).

(** [encodeURIComponent] throws [URIError] on a lone surrogate; the encoded
    text itself is only sent to the provider. *)
Definition is_high_surrogate (c : N) : bool := ((55296 <=? c) && (c <=? 56319))%N.
Definition is_low_surrogate (c : N) : bool := ((56320 <=? c) && (c <=? 57343))%N.

Fixpoint has_lone_surrogate (s : jsstring) : bool :=
  match s with
  | [] => false
  | c :: rest =>
      if is_high_surrogate c then
        match rest with
        | d :: rest' =>
            if is_low_surrogate d then has_lone_surrogate rest' else true
        | [] => true
        end
      else if is_low_surrogate c then true
      else has_lone_surrogate rest
  end.

(** ** Numbers *)

(** A [number] argument. *)
Inductive number :=
| Num (q : Q)
| NaN
| Infinity (negative : bool).

Definition Int (z : Z) : number := Num (inject_Z z).

(** [n < 1]. *)
Definition lt_one (n : number) : bool :=
  match n with
  | Num q => Qnum q <? Z.pos (Qden q)
  | NaN => false
  | Infinity negative => negative
  end.

(** [Number.isInteger(n)]. *)
Definition Number_isInteger (n : number) : bool :=
  match n with
  | Num q => Qnum q mod Z.pos (Qden q) =? 0
  | NaN | Infinity _ => false
  end.

(** The integer denoted by a number for which [Number_isInteger] holds. *)
Definition int_value (n : number) : Z :=
  match n with
  | Num q => Qnum q / Z.pos (Qden q)
  | NaN | Infinity _ => 0
  end.

(** [n.toString()] for an integer: its plain decimal text.  This is what
    JavaScript prints for the integers it is applied to here (array lengths,
    HTTP statuses); from [1e21] on JavaScript switches to exponent form. *)
Definition toString (z : Z) : jsstring :=
  js (NilZero.string_of_int (Z.to_int z)).

(** [Math.ceil(a / b)] for an integer [a] and a positive integer [b]. *)
Definition ceil_div (a b : Z) : Z := - ((- a) / b).

(** ** Arrays *)

(** [Array.prototype.slice(start, end)] with integer arguments: negative
    indices count from the end, and both bounds are clipped to the array. *)
Definition relative_index (len i : Z) : Z :=
  if i <? 0 then Z.max (len + i) 0 else Z.min i len.

Definition slice {A} (l : list A) (start end_ : Z) : list A :=
  let len := Z.of_nat (length l) in
  let k := relative_index len start in
  let final := relative_index len end_ in
  take (Z.to_nat (Z.max (final - k) 0)) (drop (Z.to_nat k) l).

(** [Array.prototype.findIndex]: the first index whose element satisfies the
    predicate, [-1] when there is none. *)
Fixpoint findIndex {A} (p : A -> bool) (l : list A) : Z :=
  match l with
  | [] => -1
  | x :: rest =>
      if p x then 0
      else let i := findIndex p rest in if i =? -1 then -1 else i + 1
  end.

(** [Array.prototype.splice(start, deleteCount)] without inserted items; the
    value is the array after the in-place deletion. *)
Definition splice {A} (l : list A) (start deleteCount : Z) : list A :=
  let len := Z.of_nat (length l) in
  let k := relative_index len start in
  let n := Z.min (Z.max deleteCount 0) (len - k) in
  take (Z.to_nat k) l ++ drop (Z.to_nat (k + n)) l.

(** [Array.prototype.some]. *)
Definition some {A} (p : A -> bool) (l : list A) : bool := existsb p l.

(** [parseInt(text)] without a radix.  [None] is [NaN]. *)
Definition digit_value (c : N) : option Z :=
  let c := Z.of_N c in
  if (48 <=? c) && (c <=? 57) then Some (c - 48)
  else if (97 <=? c) && (c <=? 122) then Some (c - 87)
  else if (65 <=? c) && (c <=? 90) then Some (c - 55)
  else None.

(** Reads the longest prefix of digits of the radix; [acc] is the value read
    so far, [None] when no digit has been read. *)
Fixpoint parse_digits (radix : Z) (acc : option Z) (s : jsstring) : option Z :=
  match s with
  | [] => acc
  | c :: rest =>
      match digit_value c with
      | Some d =>
          if d <? radix
          then parse_digits radix (Some (default 0 acc * radix + d)) rest
          else acc
      | None => acc
      end
  end.

Definition parseInt (text : jsstring) : option Z :=
  let s := trimStart text in
  let '(sign, s) :=
    match s with
    | 45%N :: rest => (-1, rest)
    | 43%N :: rest => (1, rest)
    | _ => (1, s)
    end in
  let '(radix, s) :=
    match s with
    | 48%N :: 120%N :: rest => (16, rest)
    | 48%N :: 88%N :: rest => (16, rest)
    | _ => (10, s)
    end in
  (fun v => sign * v) <$> parse_digits radix None s.

End JS.
Import JS.

(** ** Data of the service *)

(** [MovieDto] (dto/movie.dto.ts): the record kept in the favorites array. *)
Record MovieDto := {
  title : jsstring;
  imdbID : jsstring;
  year : number;
  poster : jsstring;
}.

(** [OmdbSearchResponse]: what the provider answers. *)
Module Omdb.
Record Item := {
  Title : jsstring;
  imdbID : jsstring;
  Year : jsstring;
  Poster : jsstring;
}.
Record SearchResponse := {
  Search : option (list Item);
  totalResults : option jsstring;
  Response : jsstring;
  Error : option jsstring;
}.
End Omdb.

(** The value returned by [searchMovies]. *)
Module Catalog.
Record t := {
  movies : list Omdb.Item;
  totalResults : jsstring;
}.
End Catalog.

(** [SearchResult.data]. *)
Module SearchResult.
Record Movie := {
  title : jsstring;
  imdbID : jsstring;
  year : jsstring;
  poster : jsstring;
  isFavorite : bool;
}.
Record t := {
  movies : list Movie;
  count : Z;
  totalResults : jsstring;
}.
End SearchResult.

(** [FavoritesResult.data]. *)
Module FavoritesResult.
Record t := {
  favorites : list MovieDto;
  count : Z;
  totalResults : jsstring;
  currentPage : Z;
  totalPages : Z;
}.
End FavoritesResult.

(** ** Exceptions *)

Inductive HttpStatus :=
| BAD_REQUEST
| UNAUTHORIZED
| NOT_FOUND
| REQUEST_TIMEOUT
| INTERNAL_SERVER_ERROR
| BAD_GATEWAY
| SERVICE_UNAVAILABLE.

(** Thrown values: [HttpException(message, status)], an axios error with its
    [code] and, when the provider answered, the [status] and [statusText] of
    the response, or any other error ([SyntaxError] of [JSON.parse], a file
    system error, [URIError]). *)
Inductive Exception :=
| HttpException (message : jsstring) (status : HttpStatus)
| AxiosError (code : option jsstring) (response : option (Z * jsstring))
| OtherError.

Inductive Completion (A : Type) :=
| Return (a : A)
| Throw (e : Exception).
Arguments Return {A} a.
Arguments Throw {A} e.

(** The error kinds of the specification, as the exceptions the service throws. *)
Definition InvalidMovieData : Exception :=
  HttpException (js "Invalid movie data") BAD_REQUEST.
Definition AlreadyExists : Exception :=
  HttpException (js "Movie already in favorites") BAD_REQUEST.
Definition MovieIdRequired : Exception :=
  HttpException (js "Movie ID is required") BAD_REQUEST.
Definition NotFound : Exception :=
  HttpException (js "Movie not found in favorites") NOT_FOUND.
Definition InvalidPage : Exception :=
  HttpException (js "Page must be a positive integer") BAD_REQUEST.
Definition InvalidPageSize : Exception :=
  HttpException (js "Page size must be a positive integer") BAD_REQUEST.
Definition EmptyQuery : Exception :=
  HttpException (js "Search query cannot be empty") BAD_REQUEST.
Definition SaveFailed : Exception :=
  HttpException (js "Failed to save favorites") INTERNAL_SERVER_ERROR.

(** ** State: the service object and the file system *)

(** Content of [data/favorites.json]. *)
Inductive FileContent :=
| Parsed (favs : list MovieDto)
| Unparseable (text : jsstring).

(** [favorites] is the private field of [MoviesService]; [file] is the backing
    file ([None] when it does not exist) and [writable] tells whether
    [fs.writeFileSync] succeeds. *)
Record State := {
  favorites : list MovieDto;
  file : option FileContent;
  writable : bool;
}.

Definition M (A : Type) : Type := State -> Completion A * State.

#[global] Instance M_ret : MRet M := fun A a s => (Return a, s).

#[global] Instance M_bind : MBind M := fun A B f m s =>
  match m s with
  | (Return a, s') => f a s'
  | (Throw e, s') => (Throw e, s')
  end.

Definition throw {A} (e : Exception) : M A := fun s => (Throw e, s).

(** [try { body } catch (error) { handler }]: the handler runs in the state
    the body had reached. *)
Definition try_catch {A} (body : M A) (handler : Exception -> M A) : M A :=
  fun s =>
    match body s with
    | (Return a, s') => (Return a, s')
    | (Throw e, s') => handler e s'
    end.

Definition lift {A} (c : Completion A) : M A := fun s => (c, s).

Definition get_favorites : M (list MovieDto) := fun s => (Return (favorites s), s).

Definition set_favorites (favs : list MovieDto) : M unit := fun s =>
  (Return tt, {| favorites := favs; file := file s; writable := writable s |}).

(** [fs.existsSync(this.favoritesFilePath)]. *)
Definition existsSync : M bool := fun s =>
  (Return (match file s with Some _ => true | None => false end), s).

(** [JSON.parse(fs.readFileSync(this.favoritesFilePath, 'utf-8'))]. *)
Definition readFileSync_parse : M (list MovieDto) := fun s =>
  match file s with
  | Some (Parsed favs) => (Return favs, s)
  | Some (Unparseable _) | None => (Throw OtherError, s)
  end.

(** [fs.writeFileSync(this.favoritesFilePath, JSON.stringify(favs, null, 2), 'utf-8')]:
    the whole file is replaced. *)
Definition writeFileSync_stringify (favs : list MovieDto) : M unit := fun s =>
  if writable s
  then (Return tt, {| favorites := favorites s; file := Some (Parsed favs);
                      writable := writable s |})
  else (Throw OtherError, s).

(** ** The favorites store *)

Definition saveFavorites : M unit :=
  try_catch
    (favs ← get_favorites; writeFileSync_stringify favs)
    (fun _ => throw SaveFailed).

Definition loadFavorites : M unit :=
  try_catch
    (present ← existsSync;
     if present : bool then
       favs ← readFileSync_parse; set_favorites favs
     else
       set_favorites [];; saveFavorites)
    (fun _ => set_favorites []).

Definition reloadFavorites : M unit := loadFavorites.

(** [onModuleInit]; the data directory is assumed to be there. *)
Definition onModuleInit : M unit := loadFavorites.

Definition getFavoritesSet : M (gset jsstring) :=
  favs ← get_favorites; mret (list_to_set (imdbID <$> favs)).

Definition message := jsstring.

(** [movieToAdd] is [None] for [null] or [undefined]. *)
Definition addToFavorites (movieToAdd : option MovieDto) : M message :=
  match movieToAdd with
  | None => throw InvalidMovieData
  | Some movieToAdd =>
      if negb (truthy (imdbID movieToAdd)) then throw InvalidMovieData
      else
        reloadFavorites;;
        favs ← get_favorites;
        let exists_ := some (fun movie => str_eq (imdbID movie) (imdbID movieToAdd)) favs in
        if exists_ then throw AlreadyExists
        else
          set_favorites (favs ++ [movieToAdd]);;
          saveFavorites;;
          mret (js "Movie added to favorites")
  end.

Definition removeFromFavorites (movieId : jsstring) : M message :=
  if negb (truthy movieId) || (str_length (trim movieId) =? 0)
  then throw MovieIdRequired
  else
    reloadFavorites;;
    favs ← get_favorites;
    let index := findIndex (fun movie => str_eq (imdbID movie) movieId) favs in
    if index =? -1 then throw NotFound
    else
      set_favorites (splice favs index 1);;
      saveFavorites;;
      mret (js "Movie removed from favorites").

(** [page] and [pageSize] are [None] when the argument is omitted. *)
Definition getFavorites (page pageSize : option number) : M FavoritesResult.t :=
  let page := default (Int 1) page in
  let pageSize := default (Int 10) pageSize in
  if lt_one page || negb (Number_isInteger page) then throw InvalidPage
  else if lt_one pageSize || negb (Number_isInteger pageSize) then throw InvalidPageSize
  else
    let page := int_value page in
    let pageSize := int_value pageSize in
    reloadFavorites;;
    favs ← get_favorites;
    if Z.of_nat (length favs) =? 0 then
      mret {| FavoritesResult.favorites := [];
              FavoritesResult.count := 0;
              FavoritesResult.totalResults := js "0";
              FavoritesResult.currentPage := page;
              FavoritesResult.totalPages := 0 |}
    else
      let startIndex := (page - 1) * pageSize in
      let endIndex := startIndex + pageSize in
      let paginatedFavorites := slice favs startIndex endIndex in
      let totalPages := ceil_div (Z.of_nat (length favs)) pageSize in
      mret {| FavoritesResult.favorites := paginatedFavorites;
              FavoritesResult.count := Z.of_nat (length paginatedFavorites);
              FavoritesResult.totalResults := toString (Z.of_nat (length favs));
              FavoritesResult.currentPage := page;
              FavoritesResult.totalPages := totalPages |}.

(** ** The catalog client *)

(** [value || fallback] on an optional string: [undefined] and the empty
    string are falsy. *)
Definition or_else (value : option jsstring) (fallback : jsstring) : jsstring :=
  match value with
  | Some (c :: s) => c :: s
  | Some [] | None => fallback
  end.

Definition truthy_opt (value : option jsstring) : bool :=
  match value with
  | Some s => truthy s
  | None => false
  end.

(** The [catch] block of [searchMovies]: the classification of what the
    request threw. *)
Definition classify (error : Exception) : Exception :=
  match error with
  | AxiosError code response =>
      if bool_decide (code = Some (js "ECONNABORTED")) then
        HttpException (js "Request timeout: OMDb API did not respond in time")
                      REQUEST_TIMEOUT
      else if bool_decide (code = Some (js "ENOTFOUND")) then
        HttpException (js "Unable to connect to OMDb API: DNS lookup failed. Please check your internet connection.")
                      SERVICE_UNAVAILABLE
      else if bool_decide (code = Some (js "ECONNREFUSED")) then
        HttpException (js "Unable to connect to OMDb API: Connection refused")
                      SERVICE_UNAVAILABLE
      else if bool_decide (code = Some (js "ETIMEDOUT"))
              || bool_decide (code = Some (js "ENETUNREACH")) then
        HttpException (js "Unable to connect to OMDb API: Network error. Please check your internet connection.")
                      SERVICE_UNAVAILABLE
      else
        match response with
        | Some (status, statusText) =>
            if status =? 401 then
              HttpException (js "Invalid OMDb API key") UNAUTHORIZED
            else
              HttpException (js "OMDb API error: " ++ toString status
                               ++ js " " ++ statusText)
                            BAD_GATEWAY
        | None =>
            HttpException (js "Failed to search movies. Please try again later.")
                          INTERNAL_SERVER_ERROR
        end
  | HttpException _ _ | OtherError =>
      HttpException (js "Failed to search movies. Please try again later.")
                    INTERNAL_SERVER_ERROR
  end.

(** [axios_get] is the completion of the single [axios.get] of the call; it is
    consulted only when the request is issued. *)
Definition searchMovies (title : jsstring) (page : option number)
    (axios_get : Completion Omdb.SearchResponse) : Completion Catalog.t :=
  let page := default (Int 1) page in
  if negb (truthy title) || (str_length (trim title) =? 0) then Throw EmptyQuery
  else if lt_one page || negb (Number_isInteger page) then Throw InvalidPage
  else
    let attempt :=
      if has_lone_surrogate (trim title) then Throw OtherError
      else
        match axios_get with
        | Return data =>
            if str_eq (Omdb.Response data) (js "False") || truthy_opt (Omdb.Error data)
            then Return {| Catalog.movies := []; Catalog.totalResults := js "0" |}
            else Return {| Catalog.movies := default [] (Omdb.Search data);
                           Catalog.totalResults :=
                             or_else (Omdb.totalResults data) (js "0") |}
        | Throw error => Throw error
        end in
    match attempt with
    | Return result => Return result
    | Throw error => Throw (classify error)
    end.

(** ** The favorite-tagging search *)

Definition formatMovie (favoritesSet : gset jsstring) (movie : Omdb.Item)
    : SearchResult.Movie :=
  let isFavorite := bool_decide (Omdb.imdbID movie ∈ favoritesSet) in
  {| SearchResult.title := Omdb.Title movie;
     SearchResult.imdbID := Omdb.imdbID movie;
     SearchResult.year := Omdb.Year movie;
     SearchResult.poster := Omdb.Poster movie;
     SearchResult.isFavorite := isFavorite |}.

Definition getMovieByTitle (title : jsstring) (page : option number)
    (axios_get : Completion Omdb.SearchResponse) : M SearchResult.t :=
  try_catch
    (response ← lift (searchMovies title page axios_get);
     favoritesSet ← getFavoritesSet;
     let formattedMovies := formatMovie favoritesSet <$> Catalog.movies response in
     mret {| SearchResult.movies := formattedMovies;
             SearchResult.count := Z.of_nat (length formattedMovies);
             SearchResult.totalResults := Catalog.totalResults response |})
    (fun error =>
       match error with
       | HttpException _ _ => throw error
       | AxiosError _ _ | OtherError =>
           throw (HttpException (js "Failed to get movie") INTERNAL_SERVER_ERROR)
       end).

(** ** Next page of the infinite search query (frontend hook) *)

(** [getNextPageParam] of [useSearchMovies]: [totalResults] is
    [lastPage.data.totalResults] ([None] when the field is missing, which
    [parseInt] reads as the text [undefined]) and [allPages_length] is
    [allPages.length], a natural number.  [None] is [undefined]: no next page.  [NaN]
    propagates through the division and [Math.ceil], and compares false. *)
Definition getNextPageParam (totalResults : option jsstring)
    (allPages_length : nat) : option Z :=
  let totalResults := parseInt (default (js "undefined") totalResults) in
  let currentPage := Z.of_nat allPages_length in
  let totalPages := (fun t => ceil_div t 10) <$> totalResults in
  let more :=
    match totalPages with
    | Some totalPages => currentPage <? totalPages
    | None => false
    end in
  if more then Some (currentPage + 1) else None.

(** ** Runs of the service *)

(** What can happen to a running service without an edit of the file from
    outside: a call of one of its public methods, or the file system starting
    or ceasing to accept writes. *)
Inductive Event :=
| CallAdd (movieToAdd : option MovieDto)
| CallRemove (movieId : jsstring)
| CallList (page pageSize : option number)
| CallSearch (title : jsstring) (page : option number)
             (axios_get : Completion Omdb.SearchResponse)
| SetWritable (accepts : bool).

Definition step (ev : Event) (s : State) : State :=
  match ev with
  | CallAdd movieToAdd => snd (addToFavorites movieToAdd s)
  | CallRemove movieId => snd (removeFromFavorites movieId s)
  | CallList page pageSize => snd (getFavorites page pageSize s)
  | CallSearch title page axios_get => snd (getMovieByTitle title page axios_get s)
  | SetWritable accepts =>
      {| favorites := favorites s; file := file s; writable := accepts |}
  end.

Definition run (evs : list Event) (s : State) : State :=
  foldl (fun s ev => step ev s) s evs.

(** The service after [onModuleInit] in a directory without a favorites
    file. *)
Definition fresh (accepts : bool) : State :=
  snd (onModuleInit {| favorites := []; file := None; writable := accepts |}).

(** The collection that a reload reads from the file. *)
Definition stored (s : State) : list MovieDto :=
  match file s with
  | Some (Parsed favs) => favs
  | Some (Unparseable _) | None => []
  end.

Definition ids (favs : list MovieDto) : list jsstring := imdbID <$> favs.

(** ** The next-page rule as the specification words it *)

(** [catalogHasNextPage(totalResultsText, pageSize, pagesFetchedSoFar)]: the
    total parsed from the text, [0] when it is not numeric or missing, and the
    comparison with the number of pages. *)
Definition spec_catalogHasNextPage (totalResultsText : option jsstring)
    (pageSize pagesFetchedSoFar : Z) : bool :=
  let totalResults :=
    default 0 (parseInt (default (js "undefined") totalResultsText)) in
  pagesFetchedSoFar <? ceil_div totalResults pageSize.

(** ** Invariant of the store *)

(** No two records share an [imdbID], in memory and in the file, and no stored
    record has an empty [imdbID]. *)
Definition well_kept (s : State) : Prop :=
  NoDup (ids (favorites s)) /\ NoDup (ids (stored s)) /\
  Forall (fun id => id <> []) (ids (stored s)).

(** [page] passes the guard [page < 1 || !Number.isInteger(page)]. *)
Definition positive_integer (n : number) : bool :=
  negb (lt_one n || negb (Number_isInteger n)).

(** Number of stored records carrying [movieId]. *)
Definition occurrences (movieId : jsstring) (favs : list MovieDto) : nat :=
  length (List.filter (fun movie => str_eq (imdbID movie) movieId) favs).

(** ** Sample data *)

Definition inception : MovieDto :=
  {| title := js "Inception"; imdbID := js "tt1375666";
     year := Int 2010; poster := js "https://x/p.jpg" |}.

Definition matrix : MovieDto :=
  {| title := js "The Matrix"; imdbID := js "tt0133093";
     year := Int 1999; poster := js "N/A" |}.

Definition no_file : State :=
  {| favorites := []; file := None; writable := true |}.

Definition garbled : State :=
  {| favorites := [matrix]; file := Some (Unparseable (js "{not json"));
     writable := true |}.

Definition shelf : State :=
  run [CallAdd (Some matrix); CallAdd (Some inception)] (fresh true).

Definition omdb_inception : Omdb.Item :=
  {| Omdb.Title := js "Inception"; Omdb.imdbID := js "tt1375666";
     Omdb.Year := js "2010"; Omdb.Poster := js "N/A" |}.

Definition omdb_found : Omdb.SearchResponse :=
  {| Omdb.Search := Some [omdb_inception];
     Omdb.totalResults := Some (js "1");
     Omdb.Response := js "True";
     Omdb.Error := None |}.

Definition omdb_nothing : Omdb.SearchResponse :=
  {| Omdb.Search := None;
     Omdb.totalResults := None;
     Omdb.Response := js "False";
     Omdb.Error := Some (js "Movie not found!") |}.

(** ** The favorites hook, the favorites page and the controller *)

(** [getNextPageParam] of [useFavorites]: [totalPages] is
    [lastPage.data.totalPages] and [allPages_length] is [allPages.length]. *)
Module UseFavorites.
Definition getNextPageParam (totalPages : Z) (allPages_length : nat) : option Z :=
  let currentPage := Z.of_nat allPages_length in
  if currentPage <? totalPages then Some (currentPage + 1) else None.
End UseFavorites.

(** The constant [totalResults] of the favorites page
    ([data?.pages[0]?.data.totalResults ? parseInt(...) : 0]); the argument is
    [None] when there is no first page or no such field, and the value [None]
    is [NaN]. *)
Definition Favorites_totalResults (totalResults : option jsstring) : option Z :=
  if truthy_opt totalResults then parseInt (default [] totalResults)
  else Some 0.

(** A number in a condition: [0] and [NaN] are falsy. *)
Definition number_truthy (n : number) : bool :=
  match n with
  | Num q => negb (Qnum q =? 0)
  | NaN => false
  | Infinity _ => true
  end.

(** [page || 1] for an optional number. *)
Definition or_one (page : option number) : number :=
  match page with
  | Some n => if number_truthy n then n else Int 1
  | None => Int 1
  end.

(** The methods of [MoviesController] (movies.controller.ts), applied to the
    fields of the DTO they receive; each [catch] logs and throws the error
    again. *)
Module Controller.
Definition searchMovies (q : jsstring) (page : option number)
    (axios_get : Completion Omdb.SearchResponse) : M SearchResult.t :=
  try_catch
    (let page := or_one page in
     getMovieByTitle q (Some page) axios_get)
    (fun error => throw error).

Definition addToFavorites (movieToAdd : option MovieDto) : M message :=
  try_catch (addToFavorites movieToAdd) (fun error => throw error).

Definition removeFromFavorites (imdbID : jsstring) : M message :=
  try_catch
    (if negb (truthy imdbID) then throw OtherError
     else removeFromFavorites imdbID)
    (fun error => throw error).

Definition getFavorites (page : option number) : M FavoritesResult.t :=
  try_catch
    (let page := or_one page in
     getFavorites (Some page) None)
    (fun error => throw error).
End Controller.

(** The pattern [/^tt\d{7,8}$/] that [MovieDto] puts on [imdbID]: the two
    letters [tt] followed by seven or eight decimal digits, and nothing
    else. *)
Definition is_digit (c : N) : bool := ((48 <=? c) && (c <=? 57))%N.

Definition matches_imdbID (s : jsstring) : bool :=
  match s with
  | 116%N :: 116%N :: digits =>
      forallb is_digit digits
      && ((length digits =? 7)%nat || (length digits =? 8)%nat)
  | _ => false
  end.

(** The records that [getFavorites] lists on a page (none when it throws). *)
Definition listed (page pageSize : Z) (s : State) : list MovieDto :=
  match fst (getFavorites (Some (Int page)) (Some (Int pageSize)) s) with
  | Return r => FavoritesResult.favorites r
  | Throw _ => []
  end.

(** Further sample data. *)
Definition read_only (s : State) : State :=
  {| favorites := favorites s; file := file s; writable := false |}.

(** The two favorites in memory over a file that cannot be read. *)
Definition stale_shelf : State :=
  {| favorites := [matrix; inception];
     file := Some (Unparseable (js "{not json"));
     writable := false |}.

Definition blank_id_movie : MovieDto :=
  {| title := js "Untitled"; imdbID := js " ";
     year := Int 2000; poster := js "N/A" |}.

(** The fresh store after [blank_id_movie] has been added. *)
Definition blank_shelf : State :=
  run [CallAdd (Some blank_id_movie)] (fresh true).

Definition empty_id_movie : MovieDto :=
  {| title := js "Untitled"; imdbID := [];
     year := Int 2000; poster := js "N/A" |}.

Arguments js _ : simpl never.

(** * Properties *)

(** ** Strings and arrays *)

Lemma loadFavorites_eq (s : State) :
  loadFavorites s =
  (Return tt,
   {| favorites := stored s;
      file := match file s with
              | Some c => Some c
              | None => if writable s then Some (Parsed []) else None
              end;
      writable := writable s |}).
Proof.
  destruct s as [favs [[l|t]|] [|]]; reflexivity.
Qed.

Lemma some_ids (id : jsstring) (l : list MovieDto) :
  some (fun movie => str_eq (imdbID movie) id) l = true <-> id ∈ ids l.
Proof.
  unfold some, ids, str_eq. rewrite existsb_exists, list_elem_of_fmap.
  split.
  - intros (x & Hin & Hx). apply bool_decide_eq_true in Hx.
    exists x. split; [done|]. by apply list_elem_of_In.
  - intros (x & -> & Hin). exists x. split; [by apply list_elem_of_In|].
    by apply bool_decide_eq_true.
Qed.

Lemma findIndex_lower {A} (p : A -> bool) (l : list A) : -1 <= findIndex p l.
Proof.
  induction l as [|x l IH]; simpl; [lia|].
  destruct (p x); [lia|].
  destruct (findIndex p l =? -1) eqn:E; lia.
Qed.

Lemma findIndex_none {A} (p : A -> bool) (l : list A) :
  findIndex p l = -1 <-> Forall (fun x => p x = false) l.
Proof.
  induction l as [|x l IH]; simpl.
  - split; [constructor | done].
  - pose proof (findIndex_lower p l) as Hlow.
    destruct (p x) eqn:Hx.
    + split; [done|]. intros H. apply Forall_cons in H as [H _]. congruence.
    + destruct (findIndex p l =? -1) eqn:E.
      * apply Z.eqb_eq in E. split; [|done].
        intros _. constructor; [done | by apply IH].
      * apply Z.eqb_neq in E. split; [lia|].
        intros H. apply Forall_cons in H as [_ H]. apply IH in H. done.
Qed.

Lemma findIndex_split {A} (p : A -> bool) (l : list A) :
  findIndex p l <> -1 ->
  exists l1 x l2, l = l1 ++ x :: l2 /\ p x = true /\
    Forall (fun y => p y = false) l1 /\ findIndex p l = Z.of_nat (length l1).
Proof.
  induction l as [|x l IH]; simpl; [done|].
  destruct (p x) eqn:Hx.
  - intros _. exists [], x, l. repeat split; [done | constructor].
  - destruct (findIndex p l =? -1) eqn:E; [done|].
    apply Z.eqb_neq in E. intros _.
    destruct (IH E) as (l1 & y & l2 & -> & Hy & Hl1 & Hi).
    exists (x :: l1), y, l2. repeat split; [done | by constructor |].
    rewrite Hi. simpl. lia.
Qed.

Lemma findIndex_app {A} (p : A -> bool) (l1 l2 : list A) (x : A) :
  Forall (fun y => p y = false) l1 -> p x = true ->
  findIndex p (l1 ++ x :: l2) = Z.of_nat (length l1).
Proof.
  intros Hl1 Hx. induction Hl1 as [|y l1 Hy _ IH]; simpl.
  - by rewrite Hx.
  - rewrite Hy, IH. destruct (Z.of_nat (length l1) =? -1) eqn:E; [|lia].
    apply Z.eqb_eq in E. lia.
Qed.

Lemma splice_one {A} (l1 l2 : list A) (x : A) :
  splice (l1 ++ x :: l2) (Z.of_nat (length l1)) 1 = l1 ++ l2.
Proof.
  unfold splice, relative_index.
  rewrite length_app. simpl length.
  destruct (Z.of_nat (length l1) <? 0) eqn:E; [apply Z.ltb_lt in E; lia|].
  rewrite Z.min_l by lia.
  rewrite Z.max_l by lia. rewrite Z.min_l by lia.
  rewrite Nat2Z.id.
  replace (Z.to_nat (Z.of_nat (length l1) + 1)) with (length l1 + 1)%nat by lia.
  rewrite take_app_length.
  rewrite drop_app_add'; [|done]. done.
Qed.

Lemma trimStart_blank (s : jsstring) :
  trimStart s = [] <-> forallb is_whitespace s = true.
Proof.
  induction s as [|c s IH]; simpl; [done|].
  destruct (is_whitespace c); simpl; [done|]. done.
Qed.

Lemma trimStart_head (s : jsstring) c r :
  trimStart s = c :: r -> is_whitespace c = false.
Proof.
  induction s as [|d s IH]; simpl; [done|].
  destruct (is_whitespace d) eqn:E; [done|]. by intros [= -> _].
Qed.

Lemma trim_blank (s : jsstring) :
  trim s = [] <-> forallb is_whitespace s = true.
Proof.
  unfold trim, trimEnd. split.
  - intros H. apply trimStart_blank.
    destruct (trimStart s) as [|c r] eqn:E; [done|].
    apply trimStart_head in E.
    apply (f_equal reverse) in H. rewrite reverse_involutive in H.
    change (reverse []) with (@nil N) in H.
    apply trimStart_blank in H.
    rewrite forallb_forall in H. specialize (H c).
    rewrite H in E; [done|]. apply list_elem_of_In, elem_of_reverse. left.
  - intros H. apply trimStart_blank in H. by rewrite H.
Qed.

Lemma blank_iff (movieId : jsstring) :
  negb (truthy movieId) || (str_length (trim movieId) =? 0) = true
  <-> forallb is_whitespace movieId = true.
Proof.
  rewrite <- trim_blank. unfold str_length.
  destruct movieId as [|c s]; [done|]. simpl negb. rewrite orb_false_l.
  rewrite Z.eqb_eq. destruct (trim (c :: s)); simpl; split; done || lia.
Qed.

Ltac run_monad :=
  unfold mbind, M_bind, mret, M_ret, throw, try_catch, lift, reloadFavorites,
    get_favorites, set_favorites, saveFavorites, writeFileSync_stringify;
  cbn [favorites file writable fst snd].

Lemma addToFavorites_eq (m : MovieDto) (s : State) :
  truthy (imdbID m) = true ->
  addToFavorites (Some m) s =
  if some (fun movie => str_eq (imdbID movie) (imdbID m)) (stored s)
  then (Throw AlreadyExists, snd (loadFavorites s))
  else if writable s
  then (Return (js "Movie added to favorites"),
        {| favorites := stored s ++ [m];
           file := Some (Parsed (stored s ++ [m]));
           writable := true |})
  else (Throw SaveFailed,
        {| favorites := stored s ++ [m]; file := file s; writable := false |}).
Proof.
  intros Hid. unfold addToFavorites. rewrite Hid. cbn [negb].
  run_monad. rewrite loadFavorites_eq. cbn [favorites file writable fst snd].
  destruct (some _ (stored s)); [done|].
  destruct (writable s) eqn:Hw; [done|].
  destruct (file s); done.
Qed.

Lemma removeFromFavorites_eq (movieId : jsstring) (s : State) :
  forallb is_whitespace movieId = false ->
  removeFromFavorites movieId s =
  let index := findIndex (fun movie => str_eq (imdbID movie) movieId) (stored s) in
  if index =? -1
  then (Throw NotFound, snd (loadFavorites s))
  else if writable s
  then (Return (js "Movie removed from favorites"),
        {| favorites := splice (stored s) index 1;
           file := Some (Parsed (splice (stored s) index 1));
           writable := true |})
  else (Throw SaveFailed,
        {| favorites := splice (stored s) index 1; file := file s;
           writable := false |}).
Proof.
  intros Hid. unfold removeFromFavorites.
  destruct (negb (truthy movieId) || (str_length (trim movieId) =? 0)) eqn:Hb.
  { apply blank_iff in Hb. congruence. }
  run_monad. rewrite loadFavorites_eq. cbn [favorites file writable fst snd].
  cbv zeta.
  destruct (findIndex _ (stored s) =? -1); [done|].
  destruct (writable s) eqn:Hw; [done|].
  destruct (file s); done.
Qed.

Lemma removeFromFavorites_blank (movieId : jsstring) (s : State) :
  forallb is_whitespace movieId = true ->
  removeFromFavorites movieId s = (Throw MovieIdRequired, s).
Proof.
  intros Hid. unfold removeFromFavorites.
  apply blank_iff in Hid. by rewrite Hid.
Qed.

(** ** Numbers and page windows *)

Lemma positive_integer_value (n : number) :
  positive_integer n = true -> 1 <= int_value n.
Proof.
  unfold positive_integer. destruct n as [[a b]| |neg]; simpl.
  - intros H. apply negb_true_iff, orb_false_iff in H as [H1 _].
    apply Z.ltb_ge in H1. apply Z.div_le_lower_bound; lia.
  - done.
  - by destruct neg.
Qed.

Lemma positive_integer_Int (z : Z) : positive_integer (Int z) = true <-> 1 <= z.
Proof.
  unfold positive_integer, Int. simpl. rewrite Z.mod_1_r. simpl.
  rewrite orb_false_r, negb_true_iff, Z.ltb_ge. done.
Qed.

Lemma int_value_Int (z : Z) : int_value (Int z) = z.
Proof. unfold Int. simpl. apply Z.div_1_r. Qed.

Lemma ceil_div_bounds (a b : Z) :
  0 < b -> (ceil_div a b - 1) * b < a <= ceil_div a b * b.
Proof.
  intros Hb. unfold ceil_div.
  pose proof (Z.div_mod (- a) b ltac:(lia)) as Hdm.
  pose proof (Z.mod_pos_bound (- a) b Hb) as Hm.
  nia.
Qed.

Lemma ceil_div_unique (a b q : Z) :
  0 < b -> (q - 1) * b < a <= q * b -> ceil_div a b = q.
Proof.
  intros Hb Hq. pose proof (ceil_div_bounds a b Hb) as Hc. nia.
Qed.

Lemma slice_window {A} (l : list A) (start n : Z) :
  0 <= start -> 0 <= n ->
  slice l start (start + n) = take (Z.to_nat n) (drop (Z.to_nat start) l).
Proof.
  intros Hs Hn. unfold slice, relative_index.
  destruct (start <? 0) eqn:E1; [apply Z.ltb_lt in E1; lia|].
  destruct (start + n <? 0) eqn:E2; [apply Z.ltb_lt in E2; lia|].
  set (len := Z.of_nat (length l)).
  destruct (Z.le_gt_cases len start) as [Hle|Hgt].
  - rewrite (Z.min_r start) by lia. rewrite Z.min_r by lia.
    rewrite !drop_ge by lia. by rewrite !take_nil.
  - rewrite (Z.min_l start) by lia.
    destruct (Z.le_gt_cases (start + n) len) as [Hle'|Hgt'].
    + rewrite Z.min_l by lia. f_equal. lia.
    + rewrite Z.min_r by lia.
      rewrite !take_ge; [done| |]; rewrite length_drop; lia.
Qed.

Lemma lookup_window {A} (l : list A) (k n i : nat) :
  take n (drop k l) !! i = if bool_decide (i < n)%nat then l !! (k + i)%nat else None.
Proof.
  case_bool_decide as H.
  - rewrite lookup_take_lt by done. apply lookup_drop.
  - apply lookup_take_ge. lia.
Qed.

Lemma length_window {A} (l : list A) (k n : nat) :
  length (take n (drop k l)) = (n `min` (length l - k))%nat.
Proof. by rewrite length_take, length_drop. Qed.

Lemma toString_zero : toString 0 = js "0".
Proof. reflexivity. Qed.

Lemma getFavorites_invalid_page (page pageSize : option number) (s : State) :
  positive_integer (default (Int 1) page) = false ->
  getFavorites page pageSize s = (Throw InvalidPage, s).
Proof.
  unfold positive_integer, getFavorites. intros H.
  apply negb_false_iff in H. by rewrite H.
Qed.

Lemma getFavorites_invalid_pageSize (page pageSize : option number) (s : State) :
  positive_integer (default (Int 1) page) = true ->
  positive_integer (default (Int 10) pageSize) = false ->
  getFavorites page pageSize s = (Throw InvalidPageSize, s).
Proof.
  unfold positive_integer, getFavorites. intros H1 H2.
  apply negb_true_iff in H1. apply negb_false_iff in H2. by rewrite H1, H2.
Qed.

Lemma getFavorites_eq (page pageSize : option number) (s : State) :
  positive_integer (default (Int 1) page) = true ->
  positive_integer (default (Int 10) pageSize) = true ->
  let p := int_value (default (Int 1) page) in
  let ps := int_value (default (Int 10) pageSize) in
  let window := take (Z.to_nat ps) (drop (Z.to_nat ((p - 1) * ps)) (stored s)) in
  getFavorites page pageSize s =
  (Return {| FavoritesResult.favorites := window;
             FavoritesResult.count := Z.of_nat (length window);
             FavoritesResult.totalResults := toString (Z.of_nat (length (stored s)));
             FavoritesResult.currentPage := p;
             FavoritesResult.totalPages := ceil_div (Z.of_nat (length (stored s))) ps |},
   snd (loadFavorites s)).
Proof.
  intros H1 H2 p ps window.
  pose proof (positive_integer_value _ H1) as Hp.
  pose proof (positive_integer_value _ H2) as Hps.
  unfold positive_integer in H1, H2. apply negb_true_iff in H1, H2.
  unfold getFavorites. rewrite H1, H2.
  run_monad. rewrite loadFavorites_eq. cbn [favorites file writable fst snd].
  fold p ps. cbv zeta.
  destruct (Z.of_nat (length (stored s)) =? 0) eqn:E.
  - apply Z.eqb_eq in E. unfold window.
    destruct (stored s); [|simpl in E; lia].
    rewrite drop_nil, take_nil. simpl length.
    change (Z.of_nat 0) with 0. rewrite toString_zero.
    unfold ceil_div. simpl. rewrite Z.div_0_l by lia. done.
  - rewrite slice_window by nia. done.
Qed.

Lemma stored_loadFavorites (s : State) : stored (snd (loadFavorites s)) = stored s.
Proof.
  rewrite loadFavorites_eq. unfold stored. cbn [snd file].
  destruct (file s) as [[l|t]|]; [done..|]. by destruct (writable s).
Qed.

Lemma count_window {A} (l : list A) (p ps : Z) :
  1 <= p -> 1 <= ps ->
  Z.of_nat (length (take (Z.to_nat ps) (drop (Z.to_nat ((p - 1) * ps)) l))) =
  Z.max 0 (Z.min ps (Z.of_nat (length l) - (p - 1) * ps)).
Proof.
  intros Hp Hps. rewrite length_window.
  assert (0 <= (p - 1) * ps) by nia. lia.
Qed.

(** ** Listing *)

(** C2.  For integral [page >= 1] and [pageSize >= 1], [getFavorites] returns
    the records of the stored collection at the indices
    [(page-1)*pageSize <= i < page*pageSize] that exist, in order, reports
    their number, the requested page and [totalPages], the least integer with
    [totalPages * pageSize >= totalItems] (0 for an empty collection); a page
    past the end gives an empty list and no error.  A page or page size that
    is below 1 or not an integer is rejected with a 400 exception.  With 25
    records and page size 10 there are 3 pages of 10, 10 and 5 records, and
    page 4 is empty. *)
Theorem pagination_window_correct (s : State) (page pageSize : number) :
  let items := stored s in
  let total := Z.of_nat (length items) in
  let p := int_value page in
  let ps := int_value pageSize in
  (positive_integer page = true -> positive_integer pageSize = true ->
   exists r,
     getFavorites (Some page) (Some pageSize) s = (Return r, snd (loadFavorites s)) /\
     1 <= p /\ 1 <= ps /\
     (forall i : nat,
        FavoritesResult.favorites r !! i =
        if bool_decide (Z.of_nat i < ps)
        then items !! (Z.to_nat ((p - 1) * ps) + i)%nat else None) /\
     FavoritesResult.count r = Z.of_nat (length (FavoritesResult.favorites r)) /\
     FavoritesResult.count r = Z.max 0 (Z.min ps (total - (p - 1) * ps)) /\
     FavoritesResult.totalResults r = toString total /\
     FavoritesResult.currentPage r = p /\
     (FavoritesResult.totalPages r - 1) * ps < total
       <= FavoritesResult.totalPages r * ps /\
     (total = 0 -> FavoritesResult.totalPages r = 0) /\
     (total <= (p - 1) * ps -> FavoritesResult.favorites r = [])) /\
  (lt_one page = true \/ Number_isInteger page = false ->
   getFavorites (Some page) (Some pageSize) s = (Throw InvalidPage, s)) /\
  (positive_integer page = true ->
   lt_one pageSize = true \/ Number_isInteger pageSize = false ->
   getFavorites (Some page) (Some pageSize) s = (Throw InvalidPageSize, s)) /\
  (total = 25 ->
   forall k, 1 <= k ->
   exists r,
     fst (getFavorites (Some (Int k)) (Some (Int 10)) s) = Return r /\
     FavoritesResult.totalPages r = 3 /\
     Z.of_nat (length (FavoritesResult.favorites r)) =
       (if k <=? 2 then 10 else if k =? 3 then 5 else 0)).
Proof.
  intros items total p ps. repeat split.
  - intros Hp Hps.
    assert (Hp1 : 1 <= p) by by apply positive_integer_value.
    assert (Hps1 : 1 <= ps) by by apply positive_integer_value.
    eexists. split; [apply (getFavorites_eq (Some page) (Some pageSize)); done|].
    cbn [default from_option id FavoritesResult.favorites FavoritesResult.count
         FavoritesResult.totalResults FavoritesResult.currentPage
         FavoritesResult.totalPages].
    fold items total p ps.
    split; [done|]. split; [done|]. split.
    { intros i. rewrite lookup_window. fold items.
      repeat case_bool_decide; first [done | exfalso; lia]. }
    split; [done|]. split; [by apply count_window|].
    split; [done|]. split; [done|].
    split; [apply ceil_div_bounds; lia|].
    split.
    { intros H0. apply ceil_div_unique; lia. }
    intros Hpast. apply length_zero_iff_nil. rewrite length_window.
    fold items. lia.
  - intros H. apply getFavorites_invalid_page. cbn [default from_option id].
    unfold positive_integer. destruct H as [-> | ->]; [done|].
    by rewrite orb_true_r.
  - intros Hp H. apply getFavorites_invalid_pageSize; [done|]. cbn [default from_option id].
    unfold positive_integer. destruct H as [-> | ->]; [done|].
    by rewrite orb_true_r.
  - intros H25 k Hk.
    pose proof (getFavorites_eq (Some (Int k)) (Some (Int 10)) s) as Heq.
    cbn [default from_option id] in Heq. rewrite !int_value_Int in Heq.
    rewrite Heq; [|by apply positive_integer_Int..].
    eexists. split; [done|].
    cbn [FavoritesResult.favorites FavoritesResult.totalPages].
    fold items total. rewrite H25. split; [done|].
    rewrite count_window by lia. fold items total. rewrite H25.
    destruct (k <=? 2) eqn:E2; [apply Z.leb_le in E2; lia|].
    apply Z.leb_gt in E2.
    destruct (k =? 3) eqn:E3; [apply Z.eqb_eq in E3; lia|].
    apply Z.eqb_neq in E3. lia.
Qed.

Lemma pagination_window_witness :
  exists r,
    fst (getFavorites (Some (Int 2)) (Some (Int 1)) shelf) = Return r /\
    FavoritesResult.favorites r !! 0%nat = Some inception.
Proof.
  destruct (pagination_window_correct shelf (Int 2) (Int 1)) as [H _].
  destruct H as (r & Hr & _ & _ & Hi & _); [reflexivity | reflexivity |].
  exists r. split.
  - rewrite Hr. reflexivity.
  - rewrite (Hi 0%nat). reflexivity.
Defined.

Lemma stored_empty (s : State) :
  file s = None \/ file s = Some (Parsed []) -> stored s = [].
Proof. unfold stored. by intros [-> | ->]. Qed.

(** C3 (as the code has it).  On a store whose file is missing or holds the
    empty collection, [getFavorites] with an integral [page >= 1] and
    [pageSize >= 1] throws nothing and returns [favorites = []], [count = 0],
    [totalResults = "0"], [totalPages = 0] and [currentPage] equal to the
    requested page; [currentPage] is 1 for page 1 and for the call without
    arguments. *)
Theorem empty_favorites_is_success (s : State) (page pageSize : number) :
  file s = None \/ file s = Some (Parsed []) ->
  positive_integer page = true ->
  positive_integer pageSize = true ->
  getFavorites (Some page) (Some pageSize) s =
    (Return {| FavoritesResult.favorites := [];
               FavoritesResult.count := 0;
               FavoritesResult.totalResults := js "0";
               FavoritesResult.currentPage := int_value page;
               FavoritesResult.totalPages := 0 |},
     snd (loadFavorites s)) /\
  getFavorites None None s =
    (Return {| FavoritesResult.favorites := [];
               FavoritesResult.count := 0;
               FavoritesResult.totalResults := js "0";
               FavoritesResult.currentPage := 1;
               FavoritesResult.totalPages := 0 |},
     snd (loadFavorites s)).
Proof.
  intros Hfile Hp Hps. apply stored_empty in Hfile.
  split.
  - rewrite getFavorites_eq by done. cbn [default from_option id]. cbv zeta.
    rewrite Hfile, drop_nil, take_nil. simpl length.
    change (Z.of_nat 0) with 0. rewrite toString_zero.
    rewrite (ceil_div_unique 0 (int_value pageSize) 0); [done| |].
    + apply positive_integer_value in Hps. lia.
    + apply positive_integer_value in Hps. lia.
  - rewrite getFavorites_eq by done. cbn [default from_option id]. cbv zeta.
    rewrite Hfile, drop_nil, take_nil. reflexivity.
Qed.

Lemma empty_favorites_witness :
  fst (getFavorites (Some (Int 1)) (Some (Int 10)) (fresh true)) =
  Return {| FavoritesResult.favorites := [];
            FavoritesResult.count := 0;
            FavoritesResult.totalResults := js "0";
            FavoritesResult.currentPage := 1;
            FavoritesResult.totalPages := 0 |}.
Proof.
  destruct (empty_favorites_is_success (fresh true) (Int 1) (Int 10)) as [H _].
  - right. reflexivity.
  - reflexivity.
  - reflexivity.
  - rewrite H. reflexivity.
Defined.

(** C3 as stated fails: on the freshly initialised store, page 2 is answered
    with [currentPage = 2], not 1. *)
Lemma empty_favorites_current_page_counterexample :
  positive_integer (Int 2) = true /\ positive_integer (Int 10) = true /\
  fst (getFavorites (Some (Int 2)) (Some (Int 10)) (fresh true)) <>
  Return {| FavoritesResult.favorites := [];
            FavoritesResult.count := 0;
            FavoritesResult.totalResults := js "0";
            FavoritesResult.currentPage := 1;
            FavoritesResult.totalPages := 0 |}.
Proof.
  split; [reflexivity|]. split; [reflexivity|].
  vm_compute. intros H. discriminate H.
Qed.

(** ** Removing and adding *)

Lemma findIndex_none_ids (movieId : jsstring) (l : list MovieDto) :
  findIndex (fun movie => str_eq (imdbID movie) movieId) l = -1
  <-> (movieId ∉ ids l).
Proof.
  rewrite findIndex_none, <- some_ids. unfold some.
  rewrite Forall_forall. split.
  - intros H Hex. apply existsb_exists in Hex as (x & Hin & Hx).
    apply list_elem_of_In in Hin. rewrite (H x Hin) in Hx. done.
  - intros H x Hin. destruct (str_eq (imdbID x) movieId) eqn:E; [|done].
    exfalso. apply H. apply existsb_exists. exists x.
    split; [by apply list_elem_of_In | done].
Qed.

Lemma unmatched_ids (movieId : jsstring) (l : list MovieDto) :
  Forall (fun movie => str_eq (imdbID movie) movieId = false) l
  <-> (movieId ∉ ids l).
Proof. rewrite <- findIndex_none. apply findIndex_none_ids. Qed.

Lemma occurrences_zero (movieId : jsstring) (l : list MovieDto) :
  occurrences movieId l = 0%nat <-> (movieId ∉ ids l).
Proof.
  rewrite <- unmatched_ids. unfold occurrences.
  induction l as [|x l IH]; simpl.
  - split; [constructor | done].
  - destruct (str_eq (imdbID x) movieId) eqn:E; simpl.
    + split; [done|]. intros H. apply Forall_cons in H as [H _]. congruence.
    + rewrite IH. split; [by constructor|]. by intros [_ H]%Forall_cons.
Qed.

Lemma occurrences_app (movieId : jsstring) (l1 l2 : list MovieDto) :
  occurrences movieId (l1 ++ l2)
  = (occurrences movieId l1 + occurrences movieId l2)%nat.
Proof. unfold occurrences. by rewrite List.filter_app, length_app. Qed.

(** The first record carrying [movieId], when there is one. *)
Lemma first_match (movieId : jsstring) (l : list MovieDto) :
  movieId ∈ ids l ->
  exists before record after,
    l = before ++ record :: after /\ imdbID record = movieId /\
    (movieId ∉ ids before) /\
    findIndex (fun movie => str_eq (imdbID movie) movieId) l
      = Z.of_nat (length before).
Proof.
  intros Hin.
  destruct (findIndex_split (fun movie => str_eq (imdbID movie) movieId) l)
    as (l1 & x & l2 & -> & Hx & Hl1 & Hi).
  { rewrite findIndex_none_ids. by intros H. }
  exists l1, x, l2. repeat split; [|by apply unmatched_ids | done].
  by apply bool_decide_eq_true in Hx.
Qed.

Lemma removeFromFavorites_found (movieId : jsstring) (s : State)
    (before after : list MovieDto) (record : MovieDto) :
  forallb is_whitespace movieId = false ->
  stored s = before ++ record :: after ->
  imdbID record = movieId ->
  movieId ∉ ids before ->
  removeFromFavorites movieId s =
  if writable s
  then (Return (js "Movie removed from favorites"),
        {| favorites := before ++ after;
           file := Some (Parsed (before ++ after));
           writable := true |})
  else (Throw SaveFailed,
        {| favorites := before ++ after; file := file s; writable := false |}).
Proof.
  intros Hid Hst Hrec Hbefore.
  rewrite removeFromFavorites_eq by done. cbv zeta. rewrite Hst.
  rewrite findIndex_app;
    [| by apply unmatched_ids | by apply bool_decide_eq_true].
  rewrite splice_one.
  destruct (Z.of_nat (length before) =? -1) eqn:E; [|done].
  apply Z.eqb_eq in E. lia.
Qed.

(** C4.  [removeFromFavorites] rejects an empty or whitespace-only id with the
    400 exception "Movie ID is required" before touching anything; for any
    other id it throws the 404 exception exactly when the reloaded collection
    has no record with that id; and on a writable store that holds the id once,
    the first removal succeeds and the second throws the 404 exception. *)
Theorem removal_error_semantics (s : State) (movieId : jsstring) :
  (forallb is_whitespace movieId = true ->
   removeFromFavorites movieId s = (Throw MovieIdRequired, s)) /\
  (forallb is_whitespace movieId = false ->
   (fst (removeFromFavorites movieId s) = Throw NotFound
    <-> (movieId ∉ ids (stored s))) /\
   (writable s = true -> occurrences movieId (stored s) = 1%nat ->
    exists s1,
      removeFromFavorites movieId s =
        (Return (js "Movie removed from favorites"), s1) /\
      fst (removeFromFavorites movieId s1) = Throw NotFound)).
Proof.
  split; [apply removeFromFavorites_blank|].
  intros Hid. split.
  - rewrite <- findIndex_none_ids, removeFromFavorites_eq by done. cbv zeta.
    destruct (findIndex _ (stored s) =? -1) eqn:E.
    + apply Z.eqb_eq in E. done.
    + apply Z.eqb_neq in E. destruct (writable s); done.
  - intros Hw Hocc.
    destruct (first_match movieId (stored s))
      as (before & record & after & Hst & Hrec & Hbefore & _).
    { apply dec_stable. rewrite <- occurrences_zero. lia. }
    rewrite (removeFromFavorites_found movieId s before after record) by done.
    rewrite Hw. eexists. split; [done|].
    rewrite removeFromFavorites_eq by done. cbv zeta.
    unfold stored at 1. cbn [file].
    rewrite (proj2 (findIndex_none_ids movieId (before ++ after))); [done|].
    rewrite <- occurrences_zero.
    rewrite Hst in Hocc. rewrite occurrences_app in Hocc |- *.
    change (record :: after) with ([record] ++ after) in Hocc.
    rewrite occurrences_app in Hocc.
    apply occurrences_zero in Hbefore.
    assert (occurrences movieId [record] = 1%nat) as Hone.
    { unfold occurrences, str_eq. simpl. by rewrite bool_decide_eq_true_2. }
    lia.
Qed.

Lemma removal_error_witness :
  forallb is_whitespace (js "tt1375666") = false /\
  exists s1,
    removeFromFavorites (js "tt1375666") shelf =
      (Return (js "Movie removed from favorites"), s1) /\
    fst (removeFromFavorites (js "tt1375666") s1) = Throw NotFound.
Proof.
  split; [reflexivity|].
  destruct (removal_error_semantics shelf (js "tt1375666")) as [_ H].
  destruct H as [_ H]; [reflexivity|].
  apply H; reflexivity.
Defined.

Lemma addToFavorites_missing (s : State) :
  addToFavorites None s = (Throw InvalidMovieData, s).
Proof. reflexivity. Qed.

Lemma addToFavorites_empty_id (m : MovieDto) (s : State) :
  truthy (imdbID m) = false ->
  addToFavorites (Some m) s = (Throw InvalidMovieData, s).
Proof. intros H. unfold addToFavorites. by rewrite H. Qed.

Lemma addToFavorites_new (m : MovieDto) (s : State) :
  truthy (imdbID m) = true -> imdbID m ∉ ids (stored s) ->
  addToFavorites (Some m) s =
  if writable s
  then (Return (js "Movie added to favorites"),
        {| favorites := stored s ++ [m];
           file := Some (Parsed (stored s ++ [m]));
           writable := true |})
  else (Throw SaveFailed,
        {| favorites := stored s ++ [m]; file := file s; writable := false |}).
Proof.
  intros Hid Hnew. rewrite addToFavorites_eq by done.
  destruct (some _ (stored s)) eqn:E; [|done].
  apply some_ids in E. done.
Qed.

Lemma addToFavorites_duplicate (m : MovieDto) (s : State) :
  truthy (imdbID m) = true -> imdbID m ∈ ids (stored s) ->
  addToFavorites (Some m) s =
  (Throw AlreadyExists,
   {| favorites := stored s; file := file s; writable := writable s |}).
Proof.
  intros Hid Hin. rewrite addToFavorites_eq by done.
  rewrite (proj2 (some_ids _ _) Hin), loadFavorites_eq. cbn [snd].
  unfold stored in Hin. destruct (file s) as [[l|t]|]; [done | | ];
    by apply elem_of_nil in Hin.
Qed.

(** C9 (as the code has it).  When the id passed to [removeFromFavorites] is
    not empty or made of whitespace and the reloaded collection holds a record
    with it, the collection splits as [before ++ record :: after] where
    [record] is the first one with that id, and the call leaves
    [before ++ after] in memory and, when the file can be written, in the
    file: every other record stays, in the same order.  [addToFavorites] of a
    record whose id is not empty and not stored leaves the reloaded collection
    followed by the new record. *)
Theorem mutation_frame (s : State) :
  (forall movieId : jsstring,
     forallb is_whitespace movieId = false ->
     movieId ∈ ids (stored s) ->
     exists before record after,
       stored s = before ++ record :: after /\
       imdbID record = movieId /\
       (movieId ∉ ids before) /\
       favorites (snd (removeFromFavorites movieId s)) = before ++ after /\
       (writable s = true ->
        removeFromFavorites movieId s =
          (Return (js "Movie removed from favorites"),
           {| favorites := before ++ after;
              file := Some (Parsed (before ++ after));
              writable := true |}))) /\
  (forall movieToAdd : MovieDto,
     truthy (imdbID movieToAdd) = true ->
     imdbID movieToAdd ∉ ids (stored s) ->
     favorites (snd (addToFavorites (Some movieToAdd) s))
       = stored s ++ [movieToAdd] /\
     (writable s = true ->
      addToFavorites (Some movieToAdd) s =
        (Return (js "Movie added to favorites"),
         {| favorites := stored s ++ [movieToAdd];
            file := Some (Parsed (stored s ++ [movieToAdd]));
            writable := true |}))).
Proof.
  split.
  - intros movieId Hid Hin.
    destruct (first_match movieId (stored s) Hin)
      as (before & record & after & Hst & Hrec & Hbefore & _).
    exists before, record, after.
    rewrite (removeFromFavorites_found movieId s before after record) by done.
    repeat split; try done.
    + by destruct (writable s).
    + by intros ->.
  - intros m Hid Hnew. rewrite addToFavorites_new by done.
    split; [by destruct (writable s) | by intros ->].
Qed.

Lemma mutation_frame_witness :
  exists before record after,
    stored shelf = before ++ record :: after /\
    removeFromFavorites (js "tt0133093") shelf =
      (Return (js "Movie removed from favorites"),
       {| favorites := before ++ after;
          file := Some (Parsed (before ++ after));
          writable := true |}).
Proof.
  destruct (mutation_frame shelf) as [H _].
  destruct (H (js "tt0133093")) as (before & record & after & Hst & _ & _ & _ & Hr).
  - reflexivity.
  - apply (bool_decide_unpack _). vm_compute. exact I.
  - exists before, record, after. split; [exact Hst|].
    apply Hr. reflexivity.
Defined.

(** C9 as stated fails for an id made of whitespace: the store reached by
    adding a record with the id [" "] holds a record with that id, and
    [removeFromFavorites] of it throws the 400 exception and deletes nothing.
    Likewise [addToFavorites] of a record with the empty id throws and
    appends nothing. *)
Lemma mutation_frame_blank_id_counterexample :
  stored blank_shelf = [blank_id_movie] /\
  js " " ∈ ids (stored blank_shelf) /\
  removeFromFavorites (js " ") blank_shelf = (Throw MovieIdRequired, blank_shelf) /\
  stored (snd (removeFromFavorites (js " ") blank_shelf)) = [blank_id_movie] /\
  addToFavorites (Some empty_id_movie) blank_shelf
    = (Throw InvalidMovieData, blank_shelf).
Proof.
  split; [reflexivity|]. split.
  { apply (bool_decide_unpack _). vm_compute. exact I. }
  split; [reflexivity|]. split; reflexivity.
Qed.

(** ** Failed mutations and the file *)

(** C10 (as the code has it).  A mutation rejected for its argument returns
    before the reload and leaves the whole state untouched.  A duplicate
    [addToFavorites] and a [removeFromFavorites] of an absent id never write a
    changed collection: the file is what it was before the call when it
    existed, and when it was missing the reload has created it with the empty
    collection (provided the file system accepts the write). *)
Theorem failed_mutation_file (s : State) :
  addToFavorites None s = (Throw InvalidMovieData, s) /\
  (forall movieToAdd : MovieDto,
     truthy (imdbID movieToAdd) = false ->
     addToFavorites (Some movieToAdd) s = (Throw InvalidMovieData, s)) /\
  (forall movieToAdd : MovieDto,
     truthy (imdbID movieToAdd) = true ->
     imdbID movieToAdd ∈ ids (stored s) ->
     fst (addToFavorites (Some movieToAdd) s) = Throw AlreadyExists /\
     file (snd (addToFavorites (Some movieToAdd) s)) = file s) /\
  (forall movieId : jsstring,
     forallb is_whitespace movieId = true ->
     removeFromFavorites movieId s = (Throw MovieIdRequired, s)) /\
  (forall movieId : jsstring,
     forallb is_whitespace movieId = false ->
     movieId ∉ ids (stored s) ->
     fst (removeFromFavorites movieId s) = Throw NotFound /\
     file (snd (removeFromFavorites movieId s)) =
       match file s with
       | Some content => Some content
       | None => if writable s then Some (Parsed []) else None
       end).
Proof.
  split; [apply addToFavorites_missing|].
  split; [intros m; apply addToFavorites_empty_id|].
  split.
  { intros m Hid Hin. by rewrite addToFavorites_duplicate. }
  split; [intros movieId; apply removeFromFavorites_blank|].
  intros movieId Hid Hout. rewrite removeFromFavorites_eq by done. cbv zeta.
  rewrite (proj2 (findIndex_none_ids _ _) Hout). cbn [Z.eqb fst snd].
  by rewrite loadFavorites_eq.
Qed.

Lemma failed_mutation_witness :
  fst (addToFavorites (Some inception) shelf) = Throw AlreadyExists /\
  file (snd (addToFavorites (Some inception) shelf)) = file shelf.
Proof.
  destruct (failed_mutation_file shelf) as (_ & _ & H & _).
  apply H.
  - reflexivity.
  - apply (bool_decide_unpack _). vm_compute. exact I.
Defined.

(** C10 as stated fails: on a store whose file is missing,
    [removeFromFavorites] throws the 404 exception and yet the file has been
    written: it now exists and holds the empty collection. *)
Lemma failed_remove_creates_file_counterexample :
  fst (removeFromFavorites (js "tt1375666") no_file) = Throw NotFound /\
  file no_file = None /\
  file (snd (removeFromFavorites (js "tt1375666") no_file)) = Some (Parsed []) /\
  file (snd (removeFromFavorites (js "tt1375666") no_file)) <> file no_file.
Proof.
  repeat split; try reflexivity. vm_compute. discriminate.
Qed.

(** ** Missing or unreadable file *)

Lemma stored_unreadable (s : State) :
  (file s = None \/ exists text, file s = Some (Unparseable text)) ->
  stored s = [].
Proof. unfold stored. by intros [-> | [text ->]]. Qed.

(** C7.  When the file is missing or cannot be parsed, the reload throws
    nothing and leaves the empty collection in memory; [getFavorites] returns
    the empty page, [removeFromFavorites] answers as on an empty collection
    (the 404 exception, not a read failure), and [addToFavorites] of a record
    with an id, on a file system that accepts the write, succeeds and leaves a
    parseable file holding exactly that record. *)
Theorem unreadable_file_is_empty (s : State) :
  (file s = None \/ exists text, file s = Some (Unparseable text)) ->
  fst (loadFavorites s) = Return tt /\
  favorites (snd (loadFavorites s)) = [] /\
  (forall page pageSize : number,
     positive_integer page = true -> positive_integer pageSize = true ->
     fst (getFavorites (Some page) (Some pageSize) s) =
     Return {| FavoritesResult.favorites := [];
               FavoritesResult.count := 0;
               FavoritesResult.totalResults := js "0";
               FavoritesResult.currentPage := int_value page;
               FavoritesResult.totalPages := 0 |}) /\
  (forall movieId : jsstring,
     forallb is_whitespace movieId = false ->
     fst (removeFromFavorites movieId s) = Throw NotFound) /\
  (forall movieToAdd : MovieDto,
     truthy (imdbID movieToAdd) = true -> writable s = true ->
     addToFavorites (Some movieToAdd) s =
     (Return (js "Movie added to favorites"),
      {| favorites := [movieToAdd];
         file := Some (Parsed [movieToAdd]);
         writable := true |}) /\
     stored (snd (addToFavorites (Some movieToAdd) s)) = [movieToAdd]).
Proof.
  intros Hfile. apply stored_unreadable in Hfile.
  rewrite loadFavorites_eq. cbn [fst snd favorites].
  split; [done|]. split; [done|]. split.
  { intros page pageSize Hp Hps. rewrite getFavorites_eq by done.
    cbn [default from_option id fst]. cbv zeta.
    rewrite Hfile, drop_nil, take_nil. simpl length.
    change (Z.of_nat 0) with 0. rewrite toString_zero.
    apply positive_integer_value in Hps.
    rewrite (ceil_div_unique 0 (int_value pageSize) 0); [done | lia | lia]. }
  split.
  { intros movieId Hid. rewrite removeFromFavorites_eq by done.
    rewrite Hfile. reflexivity. }
  intros m Hid Hw. rewrite addToFavorites_new; [| done |].
  - rewrite Hw, Hfile. done.
  - rewrite Hfile. apply not_elem_of_nil.
Qed.

Lemma unreadable_file_witness :
  addToFavorites (Some inception) garbled =
  (Return (js "Movie added to favorites"),
   {| favorites := [inception];
      file := Some (Parsed [inception]);
      writable := true |}).
Proof.
  destruct (unreadable_file_is_empty garbled) as (_ & _ & _ & _ & H).
  - right. eexists. reflexivity.
  - apply H; reflexivity.
Defined.

(** ** The catalog client and the tagged search *)

Lemma classify_http (error : Exception) :
  exists message status, classify error = HttpException message status.
Proof.
  unfold classify. repeat case_match; eauto.
Qed.

Lemma searchMovies_throws_http title page axios_get (e : Exception) :
  searchMovies title page axios_get = Throw e ->
  exists message status, e = HttpException message status.
Proof.
  unfold searchMovies.
  destruct (negb (truthy title) || _); [intros [= <-]; unfold EmptyQuery; eauto|].
  destruct (lt_one _ || _); [intros [= <-]; unfold InvalidPage; eauto|].
  destruct (has_lone_surrogate _).
  { intros [= <-]. apply (classify_http OtherError). }
  destruct axios_get as [data|error].
  - destruct (_ || _); done.
  - intros [= <-]. apply classify_http.
Qed.

Lemma getMovieByTitle_eq title page axios_get (s : State) :
  getMovieByTitle title page axios_get s =
  (match searchMovies title page axios_get with
   | Return response =>
       let formattedMovies :=
         formatMovie (list_to_set (ids (favorites s))) <$> Catalog.movies response in
       Return {| SearchResult.movies := formattedMovies;
                 SearchResult.count := Z.of_nat (length formattedMovies);
                 SearchResult.totalResults := Catalog.totalResults response |}
   | Throw e => Throw e
   end, s).
Proof.
  unfold getMovieByTitle, getFavoritesSet. run_monad.
  destruct (searchMovies title page axios_get) as [response|e] eqn:E; [done|].
  apply searchMovies_throws_http in E as (message & status & ->). done.
Qed.

Lemma getFavoritesSet_eq (s : State) :
  getFavoritesSet s = (Return (list_to_set (ids (favorites s))), s).
Proof. reflexivity. Qed.

Lemma searchMovies_answered title page (data : Omdb.SearchResponse) :
  forallb is_whitespace title = false ->
  positive_integer (default (Int 1) page) = true ->
  has_lone_surrogate (trim title) = false ->
  searchMovies title page (Return data) =
  if str_eq (Omdb.Response data) (js "False") || truthy_opt (Omdb.Error data)
  then Return {| Catalog.movies := []; Catalog.totalResults := js "0" |}
  else Return {| Catalog.movies := default [] (Omdb.Search data);
                 Catalog.totalResults := or_else (Omdb.totalResults data) (js "0") |}.
Proof.
  intros Htitle Hpage Hs. unfold searchMovies.
  destruct (negb (truthy title) || (str_length (trim title) =? 0)) eqn:Hb.
  { apply blank_iff in Hb. congruence. }
  unfold positive_integer in Hpage. apply negb_true_iff in Hpage.
  rewrite Hpage, Hs.
  by destruct (str_eq (Omdb.Response data) (js "False") || truthy_opt (Omdb.Error data)).
Qed.

(** C5.  When the request has been issued (the query is not blank, the page is
    an integer from 1 on, and the query can be percent-encoded) and the
    provider answers with [Response] equal to the text [False],
    [searchMovies] throws nothing and returns no movies and the total ["0"],
    which reads as the integer 0; the tagged search then returns an empty
    list as well. *)
Theorem no_results_sentinel (title : jsstring) (page : option number)
    (data : Omdb.SearchResponse) :
  forallb is_whitespace title = false ->
  positive_integer (default (Int 1) page) = true ->
  has_lone_surrogate (trim title) = false ->
  Omdb.Response data = js "False" ->
  searchMovies title page (Return data) =
    Return {| Catalog.movies := []; Catalog.totalResults := js "0" |} /\
  parseInt (js "0") = Some 0 /\
  (forall s : State,
     getMovieByTitle title page (Return data) s =
     (Return {| SearchResult.movies := [];
                SearchResult.count := 0;
                SearchResult.totalResults := js "0" |}, s)).
Proof.
  intros Htitle Hpage Hs Hflag.
  assert (searchMovies title page (Return data) =
          Return {| Catalog.movies := []; Catalog.totalResults := js "0" |}) as Heq.
  { rewrite searchMovies_answered by done. rewrite Hflag.
    unfold str_eq. by rewrite bool_decide_eq_true_2. }
  split; [done|]. split; [reflexivity|].
  intros s. by rewrite getMovieByTitle_eq, Heq.
Qed.

Lemma no_results_sentinel_witness :
  searchMovies (js "zzzz") (Some (Int 1)) (Return omdb_nothing) =
  Return {| Catalog.movies := []; Catalog.totalResults := js "0" |}.
Proof.
  apply (no_results_sentinel (js "zzzz") (Some (Int 1)) omdb_nothing);
    reflexivity.
Defined.

Lemma addToFavorites_returned (record : MovieDto) (before s : State) message :
  addToFavorites (Some record) before = (Return message, s) ->
  favorites s = stored before ++ [record] /\
  file s = Some (Parsed (stored before ++ [record])).
Proof.
  destruct (truthy (imdbID record)) eqn:Hid.
  - rewrite addToFavorites_eq by done.
    destruct (some _ (stored before)); [done|].
    destruct (writable before); [|done]. by intros [= _ <-].
  - by rewrite addToFavorites_empty_id.
Qed.

Lemma isFavorite_formatMovie (favoritesSet : gset jsstring) (movie : Omdb.Item) :
  SearchResult.isFavorite (formatMovie favoritesSet movie) = true
  <-> Omdb.imdbID movie ∈ favoritesSet.
Proof. unfold formatMovie. simpl. apply bool_decide_eq_true. Qed.

(** C8.  Whenever the tagged search returns, the set of favorite ids was
    computed once from the in-memory collection, the returned items are the
    provider's items in order, and an item has [isFavorite = true] exactly
    when its id is in that set.  If the store was left by a successful
    [addToFavorites] of a record, every returned item with that record's id is
    tagged [true].  The search does return when the request is issued and the
    provider answers. *)
Theorem favorite_tagging (s : State) (title : jsstring) (page : option number)
    (axios_get : Completion Omdb.SearchResponse) :
  (forall r,
     fst (getMovieByTitle title page axios_get s) = Return r ->
     exists favoritesSet response,
       getFavoritesSet s = (Return favoritesSet, s) /\
       (forall id, id ∈ favoritesSet <-> id ∈ ids (favorites s)) /\
       searchMovies title page axios_get = Return response /\
       SearchResult.movies r = formatMovie favoritesSet <$> Catalog.movies response /\
       (forall item, item ∈ SearchResult.movies r ->
          SearchResult.isFavorite item = true
          <-> SearchResult.imdbID item ∈ favoritesSet)) /\
  (forall record before message r,
     addToFavorites (Some record) before = (Return message, s) ->
     fst (getMovieByTitle title page axios_get s) = Return r ->
     forall item, item ∈ SearchResult.movies r ->
       SearchResult.imdbID item = imdbID record ->
       SearchResult.isFavorite item = true) /\
  (forall data,
     forallb is_whitespace title = false ->
     positive_integer (default (Int 1) page) = true ->
     has_lone_surrogate (trim title) = false ->
     axios_get = Return data ->
     exists r,
       getMovieByTitle title page axios_get s = (Return r, s) /\
       SearchResult.count r = Z.of_nat (length (SearchResult.movies r)) /\
       (str_eq (Omdb.Response data) (js "False") || truthy_opt (Omdb.Error data)
          = false ->
        SearchResult.imdbID <$> SearchResult.movies r
          = Omdb.imdbID <$> default [] (Omdb.Search data))).
Proof.
  assert (forall r,
     fst (getMovieByTitle title page axios_get s) = Return r ->
     forall item, item ∈ SearchResult.movies r ->
       SearchResult.isFavorite item = true
       <-> SearchResult.imdbID item ∈ ids (favorites s)) as Htag.
  { intros r. rewrite getMovieByTitle_eq. cbn [fst].
    destruct (searchMovies title page axios_get) as [response|e]; [|done].
    intros [= <-] item. cbn [SearchResult.movies].
    intros (movie & -> & _)%list_elem_of_fmap.
    rewrite isFavorite_formatMovie. apply elem_of_list_to_set. }
  split; [|split].
  - intros r Hr. pose proof (Htag r Hr) as Hitems.
    rewrite getMovieByTitle_eq in Hr. cbn [fst] in Hr.
    destruct (searchMovies title page axios_get) as [response|e]; [|done].
    injection Hr as <-.
    exists (list_to_set (ids (favorites s))), response.
    split; [apply getFavoritesSet_eq|].
    split; [intros id; apply elem_of_list_to_set|].
    split; [done|]. split; [done|].
    intros item Hin. rewrite (Hitems item Hin).
    symmetry. apply elem_of_list_to_set.
  - intros record before message r Hadd Hr item Hin Hid.
    apply (Htag r Hr item Hin). rewrite Hid.
    apply addToFavorites_returned in Hadd as [-> _].
    unfold ids. rewrite fmap_app. apply elem_of_app. right. simpl. left.
  - intros data Htitle Hpage Hs ->.
    rewrite getMovieByTitle_eq, searchMovies_answered by done.
    destruct (_ || _); eexists; (split; [done|]);
      cbn [SearchResult.movies SearchResult.count Catalog.movies]; split;
      try done.
    intros _. rewrite <- list_fmap_compose. done.
Qed.

Lemma favorite_tagging_witness :
  exists r,
    getMovieByTitle (js "inception") None (Return omdb_found) shelf
      = (Return r, shelf) /\
    forall item, item ∈ SearchResult.movies r ->
      SearchResult.imdbID item = imdbID inception ->
      SearchResult.isFavorite item = true.
Proof.
  destruct (favorite_tagging shelf (js "inception") None (Return omdb_found))
    as (_ & Hadd & Hret).
  destruct (Hret omdb_found) as (r & Hr & _); try reflexivity.
  exists r. split; [exact Hr|].
  apply (Hadd inception (run [CallAdd (Some matrix)] (fresh true))
              (js "Movie added to favorites") r).
  - reflexivity.
  - rewrite Hr. reflexivity.
Defined.

(** ** Uniqueness of ids along every run *)

Lemma NoDup_ids_snoc (l : list MovieDto) (m : MovieDto) :
  NoDup (ids l) -> imdbID m ∉ ids l -> NoDup (ids (l ++ [m])).
Proof.
  intros Hl Hm. unfold ids. rewrite fmap_app. apply NoDup_app.
  split; [done|]. split.
  - intros x Hx [->|[]%elem_of_nil]%elem_of_cons. done.
  - apply NoDup_singleton.
Qed.

Lemma NoDup_ids_remove (l1 l2 : list MovieDto) (x : MovieDto) :
  NoDup (ids (l1 ++ x :: l2)) -> NoDup (ids (l1 ++ l2)).
Proof.
  unfold ids. rewrite !fmap_app, fmap_cons, !NoDup_app, NoDup_cons.
  intros (H1 & H12 & _ & H2). split; [done|]. split; [|done].
  intros y Hy Hy2. apply (H12 y Hy). by right.
Qed.

Lemma nonempty_ids_remove (l1 l2 : list MovieDto) (x : MovieDto) :
  Forall (fun id : jsstring => id <> []) (ids (l1 ++ x :: l2)) ->
  Forall (fun id : jsstring => id <> []) (ids (l1 ++ l2)).
Proof.
  unfold ids. rewrite !fmap_app, fmap_cons, !Forall_app, Forall_cons.
  tauto.
Qed.

Lemma well_kept_reload (s : State) :
  well_kept s -> well_kept (snd (loadFavorites s)).
Proof.
  intros (_ & Hst & Hne). unfold well_kept.
  rewrite stored_loadFavorites. rewrite loadFavorites_eq. done.
Qed.

Lemma well_kept_add (movieToAdd : option MovieDto) (s : State) :
  well_kept s -> well_kept (snd (addToFavorites movieToAdd s)).
Proof.
  intros Hs. destruct movieToAdd as [m|]; [|done].
  destruct (truthy (imdbID m)) eqn:Hid.
  2:{ by rewrite addToFavorites_empty_id. }
  rewrite addToFavorites_eq by done.
  destruct (some _ (stored s)) eqn:E.
  { by apply well_kept_reload. }
  assert (imdbID m ∉ ids (stored s)) as Hnew.
  { intros Hin. apply some_ids in Hin. congruence. }
  destruct Hs as (Hmem & Hst & Hne).
  assert (imdbID m <> []) as Hm by by destruct (imdbID m).
  destruct (writable s); unfold well_kept, stored; cbn [snd favorites file].
  - split; [by apply NoDup_ids_snoc|]. split; [by apply NoDup_ids_snoc|].
    unfold ids. rewrite fmap_app. apply Forall_app. split; [done|].
    by constructor.
  - split; [by apply NoDup_ids_snoc|]. done.
Qed.

Lemma well_kept_remove (movieId : jsstring) (s : State) :
  well_kept s -> well_kept (snd (removeFromFavorites movieId s)).
Proof.
  intros Hs. destruct (forallb is_whitespace movieId) eqn:Hid.
  { by rewrite removeFromFavorites_blank. }
  destruct (decide (movieId ∈ ids (stored s))) as [Hin|Hout].
  - destruct (first_match movieId (stored s) Hin)
      as (before & record & after & Hst & Hrec & Hbefore & _).
    rewrite (removeFromFavorites_found movieId s before after record) by done.
    destruct Hs as (Hmem & Hdup & Hne). rewrite Hst in Hdup, Hne.
    apply NoDup_ids_remove in Hdup as Hdup'.
    apply nonempty_ids_remove in Hne as Hne'.
    destruct (writable s); unfold well_kept, stored; cbn [snd favorites file].
    + done.
    + split; [done|]. fold (stored s). by rewrite Hst.
  - rewrite removeFromFavorites_eq by done. cbv zeta.
    rewrite (proj2 (findIndex_none_ids _ _) Hout). cbn [Z.eqb snd].
    by apply well_kept_reload.
Qed.

Lemma well_kept_list (page pageSize : option number) (s : State) :
  well_kept s -> well_kept (snd (getFavorites page pageSize s)).
Proof.
  intros Hs.
  destruct (positive_integer (default (Int 1) page)) eqn:Hp.
  2:{ by rewrite getFavorites_invalid_page. }
  destruct (positive_integer (default (Int 10) pageSize)) eqn:Hps.
  2:{ by rewrite getFavorites_invalid_pageSize. }
  rewrite getFavorites_eq by done. by apply well_kept_reload.
Qed.

Lemma well_kept_step (ev : Event) (s : State) :
  well_kept s -> well_kept (step ev s).
Proof.
  intros Hs. destruct ev as [m|movieId|page pageSize|title page axios_get|b];
    cbn [step].
  - by apply well_kept_add.
  - by apply well_kept_remove.
  - by apply well_kept_list.
  - by rewrite getMovieByTitle_eq.
  - done.
Qed.

Lemma well_kept_run (evs : list Event) (s : State) :
  well_kept s -> well_kept (run evs s).
Proof.
  revert s. induction evs as [|ev evs IH]; intros s Hs; [done|].
  apply IH. by apply well_kept_step.
Qed.

Lemma well_kept_fresh (accepts : bool) : well_kept (fresh accepts).
Proof.
  destruct accepts; repeat split; cbn; constructor.
Qed.

(** C1.  Start from the service initialised without a file and let any
    sequence of calls of its methods happen (adds, removes, listings,
    searches, with the file system accepting or refusing writes at any point,
    and nothing else writing the file).  Then no two records of the stored
    collection share an id, and the same holds in memory; and
    [addToFavorites] of a record whose id is already stored throws the 400
    exception "Movie already in favorites", leaves the file as it was, and the
    collection in memory is the stored one. *)
Theorem uniqueness_invariant (evs : list Event) (accepts : bool) :
  let s := run evs (fresh accepts) in
  NoDup (ids (stored s)) /\
  NoDup (ids (favorites s)) /\
  (forall record : MovieDto,
     imdbID record ∈ ids (stored s) ->
     fst (addToFavorites (Some record) s) = Throw AlreadyExists /\
     file (snd (addToFavorites (Some record) s)) = file s /\
     stored (snd (addToFavorites (Some record) s)) = stored s /\
     favorites (snd (addToFavorites (Some record) s)) = stored s).
Proof.
  intros s.
  destruct (well_kept_run evs (fresh accepts) (well_kept_fresh accepts))
    as (Hmem & Hst & Hne).
  fold s in Hmem, Hst, Hne.
  split; [done|]. split; [done|].
  intros record Hin.
  assert (truthy (imdbID record) = true) as Hid.
  { rewrite Forall_forall in Hne. specialize (Hne _ Hin).
    by destruct (imdbID record). }
  rewrite addToFavorites_duplicate by done. done.
Qed.

Lemma uniqueness_invariant_witness :
  fst (addToFavorites (Some inception) shelf) = Throw AlreadyExists /\
  stored (snd (addToFavorites (Some inception) shelf)) = stored shelf.
Proof.
  destruct (uniqueness_invariant
              [CallAdd (Some matrix); CallAdd (Some inception)] true)
    as (_ & _ & H).
  destruct (H inception) as (Hthrow & _ & Hstored & _).
  - apply (bool_decide_unpack _). vm_compute. exact I.
  - split; [exact Hthrow | exact Hstored].
Defined.

(** ** Next page of the catalog search *)

Lemma lt_ceil_div (pages total b : Z) :
  0 < b -> (pages <? ceil_div total b) = (pages * b <? total).
Proof.
  intros Hb. pose proof (ceil_div_bounds total b Hb) as Hc.
  destruct (pages <? ceil_div total b) eqn:E1;
    destruct (pages * b <? total) eqn:E2; try done.
  - apply Z.ltb_lt in E1. apply Z.ltb_ge in E2. nia.
  - apply Z.ltb_ge in E1. apply Z.ltb_lt in E2. nia.
Qed.

(** C6 (as the code has it).  The page size of the catalog is the constant 10.
    [getNextPageParam] gives the next page number, one more than the number
    of pages fetched, exactly when the rule of the specification holds at
    page size 10, that is when [pages * 10] is below the integer that
    [parseInt] reads from the total; when [parseInt] reads no integer (the
    text is not numeric or the field is missing) there is no next page and
    nothing is thrown. *)
Theorem catalog_next_page (totalResults : option jsstring) (pages : nat) :
  getNextPageParam totalResults pages =
    (if spec_catalogHasNextPage totalResults 10 (Z.of_nat pages)
     then Some (Z.of_nat pages + 1) else None) /\
  (forall total : Z,
     parseInt (default (js "undefined") totalResults) = Some total ->
     (is_Some (getNextPageParam totalResults pages)
      <-> Z.of_nat pages < ceil_div total 10) /\
     (Z.of_nat pages < ceil_div total 10 <-> Z.of_nat pages * 10 < total)) /\
  (parseInt (default (js "undefined") totalResults) = None ->
   getNextPageParam totalResults pages = None) /\
  getNextPageParam None pages = None.
Proof.
  unfold getNextPageParam, spec_catalogHasNextPage.
  split; [|split; [|split]].
  - destruct (parseInt _) as [total|]; cbn [fmap option_fmap option_map default from_option id].
    + done.
    + change (ceil_div 0 10) with 0.
      destruct (Z.of_nat pages <? 0) eqn:E; [apply Z.ltb_lt in E; lia | done].
  - intros total ->. cbn [fmap option_fmap option_map].
    split.
    + destruct (Z.of_nat pages <? ceil_div total 10) eqn:E.
      * apply Z.ltb_lt in E. split; [done | by eexists].
      * apply Z.ltb_ge in E. split; [by intros [? [=]] | lia].
    + rewrite <- !Z.ltb_lt. by rewrite lt_ceil_div.
  - by intros ->.
  - reflexivity.
Qed.

Lemma catalog_next_page_witness :
  is_Some (getNextPageParam (Some (js "25")) 2) <-> (2 < ceil_div 25 10).
Proof.
  destruct (catalog_next_page (Some (js "25")) 2) as (_ & H & _).
  destruct (H 25) as [H1 _]; [reflexivity|]. exact H1.
Defined.

(** C6 as stated fails for a page size other than 10: with the total ["10"],
    page size 5 and one page fetched, the rule of the specification
    ([1 < ceil(10 / 5)]) asks for a next page, and [getNextPageParam], which
    has no page-size argument and divides by 10, gives none. *)
Lemma catalog_page_size_counterexample :
  spec_catalogHasNextPage (Some (js "10")) 5 1 = true /\
  getNextPageParam (Some (js "10")) 1 = None.
Proof. split; reflexivity. Qed.

(** * Further properties of the service *)

(** ** Reloading and failed writes *)

(** X1.  [loadFavorites] never throws; afterwards the collection in memory is
    the one the file holds (empty for a missing or unreadable file); it
    leaves an existing file as it is and creates a missing one with the empty
    collection when the file system accepts the write; and reloading twice is
    the same as reloading once. *)
Theorem reload_settles (s : State) :
  fst (loadFavorites s) = Return tt /\
  favorites (snd (loadFavorites s)) = stored s /\
  stored (snd (loadFavorites s)) = stored s /\
  (forall content, file s = Some content ->
     file (snd (loadFavorites s)) = Some content) /\
  (file s = None ->
     file (snd (loadFavorites s))
     = if writable s then Some (Parsed []) else None) /\
  loadFavorites (snd (loadFavorites s)) = loadFavorites s.
Proof.
  split; [by rewrite loadFavorites_eq|].
  split; [by rewrite loadFavorites_eq|].
  split; [apply stored_loadFavorites|].
  split; [intros content Hc; by rewrite loadFavorites_eq, Hc|].
  split; [intros Hc; by rewrite loadFavorites_eq, Hc|].
  rewrite (loadFavorites_eq (snd (loadFavorites s))), stored_loadFavorites.
  rewrite !loadFavorites_eq. cbn [snd favorites file writable].
  destruct (file s) as [c|]; [done|]. by destruct (writable s).
Qed.

Lemma reload_settles_witness :
  file (snd (loadFavorites garbled)) = Some (Unparseable (js "{not json")) /\
  file (snd (loadFavorites no_file)) = Some (Parsed []).
Proof.
  destruct (reload_settles garbled) as (_ & _ & _ & H & _).
  destruct (reload_settles no_file) as (_ & _ & _ & _ & H' & _).
  split; [apply H; reflexivity | apply H'; reflexivity].
Defined.

Lemma getFavorites_state (page pageSize : option number) (s : State) :
  positive_integer (default (Int 1) page) = true ->
  positive_integer (default (Int 10) pageSize) = true ->
  snd (getFavorites page pageSize s) = snd (loadFavorites s).
Proof. intros Hp Hps. by rewrite getFavorites_eq. Qed.

(** X2.  When the file system refuses the write, [addToFavorites] of a new
    record and [removeFromFavorites] of a stored id throw the 500 exception
    "Failed to save favorites"; the file is left as it was, the collection in
    memory already carries the change, and the next listing, which reloads,
    brings the stored collection back into memory. *)
Theorem refused_write (s : State) (page pageSize : number) :
  writable s = false ->
  positive_integer page = true -> positive_integer pageSize = true ->
  (forall movieToAdd : MovieDto,
     truthy (imdbID movieToAdd) = true ->
     imdbID movieToAdd ∉ ids (stored s) ->
     let after := snd (addToFavorites (Some movieToAdd) s) in
     fst (addToFavorites (Some movieToAdd) s) = Throw SaveFailed /\
     file after = file s /\
     favorites after = stored s ++ [movieToAdd] /\
     favorites (snd (getFavorites (Some page) (Some pageSize) after)) = stored s) /\
  (forall (movieId : jsstring) before record after_,
     forallb is_whitespace movieId = false ->
     stored s = before ++ record :: after_ ->
     imdbID record = movieId ->
     movieId ∉ ids before ->
     let after := snd (removeFromFavorites movieId s) in
     fst (removeFromFavorites movieId s) = Throw SaveFailed /\
     file after = file s /\
     favorites after = before ++ after_ /\
     favorites (snd (getFavorites (Some page) (Some pageSize) after)) = stored s).
Proof.
  intros Hw Hp Hps. split.
  - intros m Hid Hnew after. unfold after.
    rewrite addToFavorites_new by done. rewrite Hw. cbn [fst snd file favorites].
    repeat split.
    rewrite getFavorites_state by done. by rewrite loadFavorites_eq.
  - intros movieId before record after_ Hid Hst Hrec Hbefore after. unfold after.
    rewrite (removeFromFavorites_found movieId s before after_ record) by done.
    rewrite Hw. cbn [fst snd file favorites]. repeat split.
    rewrite getFavorites_state by done. by rewrite loadFavorites_eq.
Qed.

Lemma refused_write_witness :
  fst (addToFavorites (Some inception) (read_only (fresh true)))
    = Throw SaveFailed /\
  favorites (snd (addToFavorites (Some inception) (read_only (fresh true))))
    = [inception] /\
  file (snd (addToFavorites (Some inception) (read_only (fresh true))))
    = Some (Parsed []).
Proof.
  destruct (refused_write (read_only (fresh true)) (Int 1) (Int 10))
    as [H _]; try reflexivity.
  destruct (H inception) as (H1 & H2 & H3 & _).
  - reflexivity.
  - apply (bool_decide_unpack _). vm_compute. exact I.
  - split; [exact H1|]. split; [exact H3 | exact H2].
Defined.

(** ** How adding, listing and removing compose *)

Lemma findIndex_last_new (movieToAdd : MovieDto) (l : list MovieDto) :
  imdbID movieToAdd ∉ ids l ->
  findIndex (fun movie => str_eq (imdbID movie) (imdbID movieToAdd))
            (l ++ [movieToAdd]) = Z.of_nat (length l).
Proof.
  intros Hnew. apply findIndex_app; [by apply unmatched_ids|].
  by apply bool_decide_eq_true.
Qed.

(** X3.  On a file system that accepts writes, adding a record whose id is
    new and not blank and then removing that id both succeed and leave the
    stored collection, the file and the memory exactly as a reload of the
    initial state would. *)
Theorem add_then_remove (s : State) (movieToAdd : MovieDto) :
  writable s = true ->
  forallb is_whitespace (imdbID movieToAdd) = false ->
  imdbID movieToAdd ∉ ids (stored s) ->
  let added := snd (addToFavorites (Some movieToAdd) s) in
  fst (addToFavorites (Some movieToAdd) s)
    = Return (js "Movie added to favorites") /\
  stored added = stored s ++ [movieToAdd] /\
  removeFromFavorites (imdbID movieToAdd) added =
    (Return (js "Movie removed from favorites"),
     {| favorites := stored s; file := Some (Parsed (stored s));
        writable := true |}).
Proof.
  intros Hw Hid Hnew added.
  assert (truthy (imdbID movieToAdd) = true) as Ht.
  { destruct (imdbID movieToAdd); [done | done]. }
  unfold added. rewrite addToFavorites_new by done. rewrite Hw.
  cbn [fst snd]. split; [done|]. split; [done|].
  rewrite (removeFromFavorites_found (imdbID movieToAdd) _ (stored s) [] movieToAdd);
    try done.
  cbn [writable]. by rewrite app_nil_r.
Qed.

Lemma add_then_remove_witness :
  removeFromFavorites (js "tt1375666")
    (snd (addToFavorites (Some inception) (fresh true))) =
  (Return (js "Movie removed from favorites"),
   {| favorites := []; file := Some (Parsed []); writable := true |}).
Proof.
  destruct (add_then_remove (fresh true) inception) as (_ & _ & H).
  - reflexivity.
  - reflexivity.
  - apply (bool_decide_unpack _). vm_compute. exact I.
  - exact H.
Defined.

(** X4.  The guards of the two mutations differ: [addToFavorites] only
    requires a non-empty id, [removeFromFavorites] also rejects an id made of
    whitespace.  So a record whose id is non-empty whitespace is accepted and
    stored, and every later [removeFromFavorites] of that id throws the 400
    exception and leaves the record where it is. *)
Theorem blank_id_cannot_be_removed (s : State) (movieToAdd : MovieDto) :
  writable s = true ->
  imdbID movieToAdd <> [] ->
  forallb is_whitespace (imdbID movieToAdd) = true ->
  imdbID movieToAdd ∉ ids (stored s) ->
  let added := snd (addToFavorites (Some movieToAdd) s) in
  fst (addToFavorites (Some movieToAdd) s)
    = Return (js "Movie added to favorites") /\
  imdbID movieToAdd ∈ ids (stored added) /\
  removeFromFavorites (imdbID movieToAdd) added = (Throw MovieIdRequired, added).
Proof.
  intros Hw Hne Hblank Hnew added.
  assert (truthy (imdbID movieToAdd) = true) as Ht.
  { by destruct (imdbID movieToAdd). }
  unfold added. rewrite addToFavorites_new by done. rewrite Hw.
  cbn [fst snd]. split; [done|]. split.
  - unfold stored, ids. cbn [file]. rewrite fmap_app. apply elem_of_app.
    right. simpl. left.
  - by apply removeFromFavorites_blank.
Qed.

Lemma blank_id_witness :
  removeFromFavorites (js " ")
    (snd (addToFavorites (Some blank_id_movie) (fresh true))) =
  (Throw MovieIdRequired,
   snd (addToFavorites (Some blank_id_movie) (fresh true))).
Proof.
  destruct (blank_id_cannot_be_removed (fresh true) blank_id_movie)
    as (_ & _ & H).
  - reflexivity.
  - discriminate.
  - reflexivity.
  - apply (bool_decide_unpack _). vm_compute. exact I.
  - exact H.
Defined.

Lemma occurrences_ids_app (movieId : jsstring) (before after_ : list MovieDto)
    (record : MovieDto) :
  occurrences movieId (before ++ record :: after_)
  = (occurrences movieId before + occurrences movieId [record]
     + occurrences movieId after_)%nat.
Proof.
  change (record :: after_) with ([record] ++ after_).
  rewrite !occurrences_app. lia.
Qed.

(** X5.  A successful [removeFromFavorites] takes away exactly one record: the
    stored collection is one shorter, the removed id occurs once less, and
    every other id occurs as often as before.  This holds also when the file,
    edited from outside, holds the id several times: the later copies stay. *)
Theorem remove_takes_one (s s' : State) (movieId : jsstring) (m : message) :
  removeFromFavorites movieId s = (Return m, s') ->
  S (length (stored s')) = length (stored s) /\
  S (occurrences movieId (stored s')) = occurrences movieId (stored s) /\
  (forall other : jsstring, other <> movieId ->
     occurrences other (stored s') = occurrences other (stored s)) /\
  favorites s' = stored s'.
Proof.
  intros Hr.
  destruct (forallb is_whitespace movieId) eqn:Hid.
  { by rewrite removeFromFavorites_blank in Hr. }
  destruct (decide (movieId ∈ ids (stored s))) as [Hin|Hout].
  2:{ rewrite removeFromFavorites_eq in Hr by done. cbv zeta in Hr.
      rewrite (proj2 (findIndex_none_ids _ _) Hout) in Hr. done. }
  destruct (first_match movieId (stored s) Hin)
    as (before & record & after_ & Hst & Hrec & Hbefore & _).
  rewrite (removeFromFavorites_found movieId s before after_ record) in Hr by done.
  destruct (writable s); [|done]. injection Hr as _ <-.
  change (stored {| favorites := before ++ after_;
                    file := Some (Parsed (before ++ after_));
                    writable := true |}) with (before ++ after_).
  cbn [favorites]. rewrite Hst.
  rewrite !length_app. simpl length.
  split; [lia|].
  assert (occurrences movieId [record] = 1%nat) as Hone.
  { unfold occurrences, str_eq. simpl. by rewrite bool_decide_eq_true_2. }
  split.
  { rewrite occurrences_ids_app, occurrences_app. lia. }
  split; [|done].
  intros other Hother.
  assert (occurrences other [record] = 0%nat) as Hzero.
  { unfold occurrences, str_eq. simpl. rewrite bool_decide_eq_false_2; [done|].
    congruence. }
  rewrite occurrences_ids_app, occurrences_app. lia.
Qed.

Lemma remove_takes_one_witness :
  S (length (stored (snd (removeFromFavorites (js "tt0133093") shelf))))
  = length (stored shelf).
Proof.
  destruct (remove_takes_one shelf
              (snd (removeFromFavorites (js "tt0133093") shelf))
              (js "tt0133093") (js "Movie removed from favorites"))
    as (H & _).
  - reflexivity.
  - exact H.
Defined.

(** ** Pages of the favorites listing *)

Lemma listed_eq (page pageSize : Z) (s : State) :
  1 <= page -> 1 <= pageSize ->
  listed page pageSize s =
  take (Z.to_nat pageSize) (drop (Z.to_nat ((page - 1) * pageSize)) (stored s)).
Proof.
  intros Hp Hps. unfold listed.
  rewrite getFavorites_eq; cbn [default from_option id];
    [|by apply positive_integer_Int..].
  by rewrite !int_value_Int.
Qed.

Lemma chunks_cover {A} (ps m : nat) (l : list A) :
  (length l <= m * ps)%nat ->
  concat ((fun k => take ps (drop (k * ps) l)) <$> seq 0 m) = l.
Proof.
  revert l. induction m as [|m IH]; intros l Hlen.
  - simpl in *. destruct l; [done | simpl in Hlen; lia].
  - cbn [seq]. rewrite <- fmap_S_seq, fmap_cons, <- list_fmap_compose.
    cbn [concat]. rewrite Nat.mul_0_l, drop_0.
    transitivity (take ps l ++ drop ps l); [|apply take_drop]. f_equal.
    etransitivity; [|apply (IH (drop ps l)); rewrite length_drop; lia].
    f_equal. apply list_fmap_ext. intros i k _. cbn [compose].
    by rewrite drop_drop.
Qed.

(** X6.  For every integral page size from 1 on, the pages 1, 2, ...,
    [totalPages] of [getFavorites], put one after the other, are exactly the
    stored collection: every record is listed once, in the stored order. *)
Theorem pages_cover_collection (s : State) (pageSize : Z) :
  1 <= pageSize ->
  let totalPages := ceil_div (Z.of_nat (length (stored s))) pageSize in
  concat ((fun k : nat => listed (Z.of_nat k) pageSize s)
            <$> seq 1 (Z.to_nat totalPages))
  = stored s.
Proof.
  intros Hps totalPages.
  pose proof (ceil_div_bounds (Z.of_nat (length (stored s))) pageSize
                ltac:(lia)) as Hb.
  fold totalPages in Hb.
  etransitivity;
    [|apply (chunks_cover (Z.to_nat pageSize) (Z.to_nat totalPages)); nia].
  rewrite <- fmap_S_seq, <- list_fmap_compose. f_equal.
  apply list_fmap_ext. intros i k _. cbn [compose].
  rewrite listed_eq by lia. do 2 f_equal. nia.
Qed.

Lemma pages_cover_witness :
  listed 1 1 shelf ++ listed 2 1 shelf ++ [] = stored shelf.
Proof.
  apply (pages_cover_collection shelf 1). lia.
Defined.

(** X7.  How full the pages are: for integral [page >= 1] and
    [pageSize >= 1], a page before [totalPages] holds exactly [pageSize]
    records, page [totalPages] holds at least one and at most [pageSize], and
    a page after [totalPages] holds none; so a listed page is non-empty
    exactly when [page <= totalPages]. *)
Theorem page_fill (s : State) (page pageSize : number) :
  positive_integer page = true -> positive_integer pageSize = true ->
  exists r,
    fst (getFavorites (Some page) (Some pageSize) s) = Return r /\
    let p := int_value page in
    let ps := int_value pageSize in
    let count := FavoritesResult.count r in
    let totalPages := FavoritesResult.totalPages r in
    0 <= count <= ps /\
    (p < totalPages -> count = ps) /\
    (p = totalPages -> 1 <= count) /\
    (totalPages < p -> count = 0) /\
    (FavoritesResult.favorites r <> [] <-> p <= totalPages).
Proof.
  intros Hp Hps.
  rewrite getFavorites_eq by done. cbn [default from_option id fst]. cbv zeta.
  eexists. split; [done|].
  cbn [FavoritesResult.count FavoritesResult.totalPages FavoritesResult.favorites].
  apply positive_integer_value in Hp, Hps.
  set (p := int_value page) in *. set (ps := int_value pageSize) in *.
  set (n := Z.of_nat (length (stored s))).
  pose proof (ceil_div_bounds n ps ltac:(lia)) as Hb.
  set (t := ceil_div n ps) in *.
  rewrite count_window by done. fold n.
  split; [lia|]. split; [intros; nia|]. split; [intros; nia|].
  split; [intros; nia|].
  rewrite <- length_zero_iff_nil, length_window. fold n.
  split; intros H.
  - assert ((p - 1) * ps < n) by nia. nia.
  - assert ((p - 1) * ps < n) by nia. nia.
Qed.

Lemma page_fill_witness :
  exists r,
    fst (getFavorites (Some (Int 3)) (Some (Int 1)) shelf) = Return r /\
    FavoritesResult.count r = 0.
Proof.
  destruct (page_fill shelf (Int 3) (Int 1)) as (r & Hr & _ & _ & _ & H & _);
    try reflexivity.
  exists r. split; [exact Hr|]. apply H.
  vm_compute in Hr. injection Hr as <-. reflexivity.
Defined.

Lemma stored_after_add (record : MovieDto) (before s : State) (m : message) :
  addToFavorites (Some record) before = (Return m, s) ->
  stored s = stored before ++ [record].
Proof.
  intros H. apply addToFavorites_returned in H as [_ H].
  unfold stored at 1. by rewrite H.
Qed.

(** X8.  After a successful [addToFavorites] the record is the last one
    listed: with [n] records stored before and any integral page size from 1
    on, it is on page [n / pageSize + 1], which is the last page, at position
    [n mod pageSize], and the listing reports [n + 1] as the total. *)
Theorem added_record_is_listed (before s : State) (record : MovieDto)
    (m : message) (pageSize : Z) :
  addToFavorites (Some record) before = (Return m, s) ->
  1 <= pageSize ->
  let n := Z.of_nat (length (stored before)) in
  exists r,
    fst (getFavorites (Some (Int (n / pageSize + 1))) (Some (Int pageSize)) s)
      = Return r /\
    FavoritesResult.favorites r !! Z.to_nat (n mod pageSize) = Some record /\
    FavoritesResult.count r = n mod pageSize + 1 /\
    FavoritesResult.totalResults r = toString (n + 1) /\
    FavoritesResult.currentPage r = n / pageSize + 1 /\
    FavoritesResult.totalPages r = n / pageSize + 1.
Proof.
  intros Hadd Hps n. apply stored_after_add in Hadd.
  pose proof (Z.div_mod n pageSize ltac:(lia)) as Hdm.
  pose proof (Z.mod_pos_bound n pageSize ltac:(lia)) as Hm.
  assert (0 <= n / pageSize) as Hq by (apply Z.div_pos; lia).
  rewrite getFavorites_eq; cbn [default from_option id];
    [|apply positive_integer_Int; lia..].
  rewrite !int_value_Int. cbv zeta. eexists. split; [done|].
  cbn [FavoritesResult.favorites FavoritesResult.count
       FavoritesResult.totalResults FavoritesResult.currentPage
       FavoritesResult.totalPages].
  rewrite count_window by lia. rewrite Hadd, length_app. simpl length.
  replace (Z.of_nat (length (stored before) + 1)) with (n + 1) by lia.
  split.
  { rewrite lookup_window. rewrite bool_decide_eq_true_2 by lia.
    replace (Z.to_nat ((n / pageSize + 1 - 1) * pageSize)
             + Z.to_nat (n mod pageSize))%nat
      with (length (stored before) + 0)%nat by nia.
    by rewrite lookup_app_r, Nat.add_comm, Nat.add_sub by lia. }
  split; [nia|]. split; [done|]. split; [done|].
  apply ceil_div_unique; [lia | nia].
Qed.

Lemma added_record_witness :
  exists r,
    fst (getFavorites (Some (Int 2)) (Some (Int 1)) shelf) = Return r /\
    FavoritesResult.favorites r !! 0%nat = Some inception.
Proof.
  destruct (added_record_is_listed
              (run [CallAdd (Some matrix)] (fresh true)) shelf inception
              (js "Movie added to favorites") 1)
    as (r & Hr & Hi & _).
  - reflexivity.
  - lia.
  - exists r. split; [exact Hr | exact Hi].
Defined.

(** ** The search: guards, failures, and what it reads *)

Lemma searchMovies_blank title page axios_get :
  forallb is_whitespace title = true ->
  searchMovies title page axios_get = Throw EmptyQuery.
Proof.
  intros H. apply blank_iff in H. unfold searchMovies. by rewrite H.
Qed.

Lemma searchMovies_invalid_page title page axios_get :
  forallb is_whitespace title = false ->
  positive_integer (default (Int 1) page) = false ->
  searchMovies title page axios_get = Throw InvalidPage.
Proof.
  intros Ht Hp. unfold searchMovies.
  destruct (negb (truthy title) || (str_length (trim title) =? 0)) eqn:Hb.
  { apply blank_iff in Hb. congruence. }
  unfold positive_integer in Hp. apply negb_false_iff in Hp. by rewrite Hp.
Qed.

Lemma searchMovies_issued title page axios_get :
  forallb is_whitespace title = false ->
  positive_integer (default (Int 1) page) = true ->
  searchMovies title page axios_get =
  if has_lone_surrogate (trim title) then Throw (classify OtherError)
  else
    match axios_get with
    | Return data =>
        if str_eq (Omdb.Response data) (js "False") || truthy_opt (Omdb.Error data)
        then Return {| Catalog.movies := []; Catalog.totalResults := js "0" |}
        else Return {| Catalog.movies := default [] (Omdb.Search data);
                       Catalog.totalResults :=
                         or_else (Omdb.totalResults data) (js "0") |}
    | Throw error => Throw (classify error)
    end.
Proof.
  intros Ht Hp. unfold searchMovies.
  destruct (negb (truthy title) || (str_length (trim title) =? 0)) eqn:Hb.
  { apply blank_iff in Hb. congruence. }
  unfold positive_integer in Hp. apply negb_true_iff in Hp. rewrite Hp.
  destruct (has_lone_surrogate (trim title)); [done|].
  destruct axios_get as [data|error]; [|done].
  by destruct (str_eq (Omdb.Response data) (js "False") || truthy_opt (Omdb.Error data)).
Qed.

(** X9.  The guards of the search come before the request: a blank query
    throws "Search query cannot be empty" and, for a query that is not blank,
    a page that is not an integer from 1 on throws "Page must be a positive
    integer" (both 400), whatever the provider would have answered; and a
    query that cannot be percent-encoded (a lone surrogate) ends in the 500
    exception of the search without the provider's answer being looked at.
    The tagged search passes these exceptions on unchanged and leaves the
    state alone. *)
Theorem search_guards_first (title : jsstring) (page : option number)
    (axios_get : Completion Omdb.SearchResponse) (s : State) :
  (forallb is_whitespace title = true ->
   searchMovies title page axios_get = Throw EmptyQuery /\
   getMovieByTitle title page axios_get s = (Throw EmptyQuery, s)) /\
  (forallb is_whitespace title = false ->
   positive_integer (default (Int 1) page) = false ->
   searchMovies title page axios_get = Throw InvalidPage /\
   getMovieByTitle title page axios_get s = (Throw InvalidPage, s)) /\
  (forallb is_whitespace title = false ->
   positive_integer (default (Int 1) page) = true ->
   has_lone_surrogate (trim title) = true ->
   searchMovies title page axios_get =
     Throw (HttpException (js "Failed to search movies. Please try again later.")
                          INTERNAL_SERVER_ERROR)).
Proof.
  split; [|split].
  - intros H. rewrite getMovieByTitle_eq, searchMovies_blank by done. done.
  - intros Ht Hp.
    rewrite getMovieByTitle_eq, searchMovies_invalid_page by done. done.
  - intros Ht Hp Hs. rewrite searchMovies_issued by done. by rewrite Hs.
Qed.

Lemma search_guards_witness :
  searchMovies (js " ") None (Return omdb_found) = Throw EmptyQuery /\
  searchMovies (js "matrix") (Some (Num (3 # 2))) (Return omdb_found)
    = Throw InvalidPage.
Proof.
  destruct (search_guards_first (js " ") None (Return omdb_found) no_file)
    as ([H1 _] & _); [reflexivity|].
  destruct (search_guards_first (js "matrix") (Some (Num (3 # 2)))
              (Return omdb_found) no_file)
    as (_ & [H2 _] & _); [reflexivity | reflexivity |].
  split; [exact H1 | exact H2].
Defined.

Lemma classify_status (error : Exception) :
  exists message status,
    classify error = HttpException message status /\
    status <> NOT_FOUND /\ status <> BAD_REQUEST.
Proof.
  unfold classify. repeat case_match; eauto.
Qed.

(** X10.  Whatever the search throws is an [HttpException]; its status is
    never 404, and it is 400 only for a blank query or an invalid page, that
    is only when no request was made.  The same holds for the tagged
    search. *)
Theorem search_thrown_status (title : jsstring) (page : option number)
    (axios_get : Completion Omdb.SearchResponse) (s : State) (e : Exception) :
  searchMovies title page axios_get = Throw e \/
  fst (getMovieByTitle title page axios_get s) = Throw e ->
  exists message status,
    e = HttpException message status /\
    status <> NOT_FOUND /\
    (status = BAD_REQUEST ->
     forallb is_whitespace title = true \/
     positive_integer (default (Int 1) page) = false).
Proof.
  intros H.
  assert (searchMovies title page axios_get = Throw e) as He.
  { destruct H as [H|H]; [done|]. rewrite getMovieByTitle_eq in H.
    cbn [fst] in H.
    destruct (searchMovies title page axios_get) as [r|e0]; [done|].
    by injection H as ->. }
  clear H.
  destruct (forallb is_whitespace title) eqn:Ht.
  { rewrite searchMovies_blank in He by done. injection He as <-.
    eexists _, _. split; [done|]. split; [done | auto]. }
  destruct (positive_integer (default (Int 1) page)) eqn:Hp.
  2:{ rewrite searchMovies_invalid_page in He by done. injection He as <-.
      eexists _, _. split; [done|]. split; [done | auto]. }
  rewrite searchMovies_issued in He by done.
  assert (exists error, e = classify error) as [error ->].
  { destruct (has_lone_surrogate (trim title));
      [injection He as <-; by exists OtherError|].
    destruct axios_get as [data|error];
      [|injection He as <-; by exists error].
    by destruct (str_eq (Omdb.Response data) (js "False")
                 || truthy_opt (Omdb.Error data)). }
  destruct (classify_status error) as (message & status & -> & H1 & H2).
  exists message, status. split; [done|]. split; [done|]. done.
Qed.

Lemma search_thrown_status_witness :
  exists message status,
    HttpException (js "Request timeout: OMDb API did not respond in time")
                  REQUEST_TIMEOUT
    = HttpException message status /\ status <> NOT_FOUND.
Proof.
  destruct (search_thrown_status (js "matrix") None
              (Throw (AxiosError (Some (js "ECONNABORTED")) None)) no_file
              (HttpException
                 (js "Request timeout: OMDb API did not respond in time")
                 REQUEST_TIMEOUT))
    as (message & status & He & Hs & _).
  - left. reflexivity.
  - exists message, status. split; [exact He | exact Hs].
Defined.

(** X11.  How a failed request is reported once the guards have passed.  The
    error code of axios decides first, whatever response came with it:
    [ECONNABORTED] gives 408, and [ENOTFOUND], [ECONNREFUSED], [ETIMEDOUT]
    and [ENETUNREACH] give 503.  For any other code (or none) a response with
    status 401 gives 401, a response with another status gives 502 with the
    status and its text in the message, and no response gives 500; an error
    that is not an axios error gives 500. *)
Theorem upstream_failure_reported (title : jsstring) (page : option number)
    (code : option jsstring) (response : option (Z * jsstring)) :
  forallb is_whitespace title = false ->
  positive_integer (default (Int 1) page) = true ->
  has_lone_surrogate (trim title) = false ->
  let failed := searchMovies title page (Throw (AxiosError code response)) in
  (code = Some (js "ECONNABORTED") ->
   failed = Throw (HttpException
                     (js "Request timeout: OMDb API did not respond in time")
                     REQUEST_TIMEOUT)) /\
  (code = Some (js "ENOTFOUND") \/ code = Some (js "ECONNREFUSED") \/
   code = Some (js "ETIMEDOUT") \/ code = Some (js "ENETUNREACH") ->
   exists message, failed = Throw (HttpException message SERVICE_UNAVAILABLE)) /\
  (code <> Some (js "ECONNABORTED") -> code <> Some (js "ENOTFOUND") ->
   code <> Some (js "ECONNREFUSED") -> code <> Some (js "ETIMEDOUT") ->
   code <> Some (js "ENETUNREACH") ->
   match response with
   | Some (status, statusText) =>
       if status =? 401
       then failed = Throw (HttpException (js "Invalid OMDb API key") UNAUTHORIZED)
       else failed = Throw (HttpException
                              (js "OMDb API error: " ++ toString status
                                 ++ js " " ++ statusText)
                              BAD_GATEWAY)
   | None =>
       failed = Throw (HttpException
                         (js "Failed to search movies. Please try again later.")
                         INTERNAL_SERVER_ERROR)
   end) /\
  searchMovies title page (Throw OtherError) =
    Throw (HttpException (js "Failed to search movies. Please try again later.")
                         INTERNAL_SERVER_ERROR).
Proof.
  intros Ht Hp Hs failed. unfold failed.
  rewrite !searchMovies_issued by done. rewrite Hs.
  split; [|split; [|split]].
  - by intros ->.
  - intros [-> | [-> | [-> | ->]]]; eexists; reflexivity.
  - intros H1 H2 H3 H4 H5. unfold classify.
    rewrite !bool_decide_eq_false_2 by done. cbn [orb].
    destruct response as [[status statusText]|]; [|done].
    by destruct (status =? 401).
  - done.
Qed.

Lemma upstream_failure_witness :
  searchMovies (js "matrix") None
    (Throw (AxiosError (Some (js "ECONNABORTED")) (Some (401, js "Unauthorized"))))
  = Throw (HttpException
             (js "Request timeout: OMDb API did not respond in time")
             REQUEST_TIMEOUT).
Proof.
  destruct (upstream_failure_reported (js "matrix") None
              (Some (js "ECONNABORTED")) (Some (401, js "Unauthorized"))
              eq_refl eq_refl eq_refl)
    as (H & _).
  apply H. reflexivity.
Defined.

Lemma tagged_by_memory (s : State) title page axios_get r :
  fst (getMovieByTitle title page axios_get s) = Return r ->
  forall item, item ∈ SearchResult.movies r ->
    SearchResult.isFavorite item = true
    <-> SearchResult.imdbID item ∈ ids (favorites s).
Proof.
  rewrite getMovieByTitle_eq. cbn [fst].
  destruct (searchMovies title page axios_get) as [response|e]; [|done].
  intros [= <-] item. cbn [SearchResult.movies].
  intros (movie & -> & _)%list_elem_of_fmap.
  rewrite isFavorite_formatMovie. apply elem_of_list_to_set.
Qed.

(** X12.  The tagged search reads the collection in memory and nothing else:
    it does not reload, it leaves the state as it is, and two services with
    the same collection in memory answer alike whatever their files hold.  So
    after a refused write the new record, which is in memory and not in the
    file, is tagged as a favorite by the next search. *)
Theorem search_reads_memory (s s' : State) (title : jsstring)
    (page : option number) (axios_get : Completion Omdb.SearchResponse) :
  snd (getMovieByTitle title page axios_get s) = s /\
  (favorites s = favorites s' ->
   fst (getMovieByTitle title page axios_get s)
   = fst (getMovieByTitle title page axios_get s')) /\
  (forall (record : MovieDto) r,
     writable s = false ->
     truthy (imdbID record) = true ->
     imdbID record ∉ ids (stored s) ->
     fst (getMovieByTitle title page axios_get
            (snd (addToFavorites (Some record) s))) = Return r ->
     (imdbID record ∉ ids (stored (snd (addToFavorites (Some record) s)))) /\
     forall item, item ∈ SearchResult.movies r ->
       SearchResult.imdbID item = imdbID record ->
       SearchResult.isFavorite item = true).
Proof.
  split; [by rewrite getMovieByTitle_eq|].
  split; [intros H; by rewrite !getMovieByTitle_eq, H|].
  intros record r Hw Hid Hnew Hr.
  pose proof (tagged_by_memory _ _ _ _ _ Hr) as Htag.
  rewrite addToFavorites_new in Htag |- * by done. rewrite Hw in Htag |- *.
  cbn [snd favorites] in Htag |- *.
  split; [done|].
  intros item Hin Hitem. apply (Htag item Hin). rewrite Hitem.
  unfold ids. rewrite fmap_app. apply elem_of_app. right. simpl. left.
Qed.

Lemma search_reads_memory_witness :
  fst (getMovieByTitle (js "inception") None (Return omdb_found) shelf)
  = fst (getMovieByTitle (js "inception") None (Return omdb_found)
           stale_shelf).
Proof.
  destruct (search_reads_memory shelf stale_shelf
              (js "inception") None (Return omdb_found)) as (_ & H & _).
  apply H. reflexivity.
Defined.

(** ** Totals printed by the service and read by the pages *)

Lemma js_cons (c : ascii) (s : string) :
  js (String c s) = N_of_ascii c :: js s.
Proof. reflexivity. Qed.

Lemma parse_digits_uint (d acc : Decimal.uint) :
  parse_digits 10 (Some (Z.of_N (DecimalPos.Unsigned.of_lu acc)))
    (js (NilEmpty.string_of_uint d))
  = Some (Z.of_N (DecimalPos.Unsigned.of_lu (Decimal.revapp d acc))).
Proof.
  revert acc.
  induction d as [|d IH|d IH|d IH|d IH|d IH|d IH|d IH|d IH|d IH|d IH];
    intros acc; [reflexivity|..];
    cbn [NilEmpty.string_of_uint Decimal.revapp]; rewrite js_cons, <- IH.
  all: cbn [parse_digits].
  all: match goal with
       | |- context [digit_value ?c] =>
           let v := eval vm_compute in (digit_value c) in
           change (digit_value c) with v
       end; cbv beta iota.
  all: match goal with
       | |- context [?k <? 10] => change (k <? 10) with true
       end; cbv iota; cbn [default from_option id].
  all: do 2 f_equal; cbn [DecimalPos.Unsigned.of_lu]; lia.
Qed.

Lemma parse_digits_start (d : Decimal.uint) :
  d <> Decimal.Nil ->
  parse_digits 10 None (js (NilEmpty.string_of_uint d)) = Some (Z.of_uint d).
Proof.
  intros Hd. unfold Z.of_uint.
  rewrite DecimalPos.Unsigned.of_uint_alt. unfold Decimal.rev.
  destruct d as [|d|d|d|d|d|d|d|d|d|d]; [done|..];
    cbn [NilEmpty.string_of_uint Decimal.revapp]; rewrite js_cons;
    rewrite <- parse_digits_uint; reflexivity.
Qed.

Lemma parseInt_digits (d : Decimal.uint) :
  d <> Decimal.Nil ->
  parseInt (js (NilEmpty.string_of_uint d)) = Some (Z.of_uint d) /\
  parseInt (45%N :: js (NilEmpty.string_of_uint d)) = Some (- Z.of_uint d).
Proof.
  intros Hd. rewrite <- (parse_digits_start d Hd).
  assert (forall s, (fun v => 1 * v) <$> parse_digits 10 None s
                    = parse_digits 10 None s) as H1.
  { intros s. destruct (parse_digits 10 None s) as [v|]; [|done].
    cbn [fmap option_fmap option_map]. f_equal; lia. }
  assert (forall s v, parse_digits 10 None s = Some v ->
            (fun v => -1 * v) <$> parse_digits 10 None s = Some (- v)) as H2.
  { intros s v ->. cbn [fmap option_fmap option_map]. f_equal; lia. }
  rewrite (parse_digits_start d Hd).
  split.
  - rewrite <- (parse_digits_start d Hd), <- H1.
    destruct d as [|d|d|d|d|d|d|d|d|d|d]; [done|..];
      try reflexivity.
    destruct d; reflexivity.
  - rewrite <- (H2 _ _ (parse_digits_start d Hd)).
    destruct d as [|d|d|d|d|d|d|d|d|d|d]; [done|..];
      try reflexivity.
    destruct d; reflexivity.
Qed.

Lemma to_uint_nonnil (p : positive) : Pos.to_uint p <> Decimal.Nil.
Proof. apply DecimalPos.Unsigned.to_uint_nonnil. Qed.

Lemma parseInt_toString (z : Z) : parseInt (toString z) = Some z.
Proof.
  unfold toString. destruct z as [|p|p]; [reflexivity|..];
    cbn [Z.to_int NilZero.string_of_int].
  - pose proof (to_uint_nonnil p) as Hp.
    replace (NilZero.string_of_uint (Pos.to_uint p))
      with (NilEmpty.string_of_uint (Pos.to_uint p))
      by (by destruct (Pos.to_uint p)).
    rewrite (proj1 (parseInt_digits _ Hp)). f_equal.
    unfold Z.of_uint. by rewrite DecimalPos.Unsigned.of_to.
  - pose proof (to_uint_nonnil p) as Hp.
    replace (NilZero.string_of_uint (Pos.to_uint p))
      with (NilEmpty.string_of_uint (Pos.to_uint p))
      by (by destruct (Pos.to_uint p)).
    rewrite js_cons. change (N_of_ascii "-") with 45%N.
    rewrite (proj2 (parseInt_digits _ Hp)). f_equal.
    unfold Z.of_uint. by rewrite DecimalPos.Unsigned.of_to.
Qed.

Lemma toString_nonempty (z : Z) : truthy (toString z) = true.
Proof.
  pose proof (parseInt_toString z) as H.
  destruct (toString z); [discriminate H | done].
Qed.

(** X13.  The total that [getFavorites] prints as text is read back by the
    favorites page as the number of stored records: [parseInt] of
    [totalResults] is the length of the stored collection, for every valid
    page and page size, also for the empty collection (the text ["0"] is not
    falsy).  More generally [parseInt] reads back the text that [toString]
    prints for the length of an array (a natural number below [2^32]). *)
Theorem favorites_total_read_back (s : State) (page pageSize : number) :
  positive_integer page = true -> positive_integer pageSize = true ->
  (forall n : nat,
     Z.of_nat n < 2 ^ 32 ->
     parseInt (toString (Z.of_nat n)) = Some (Z.of_nat n)) /\
  exists r,
    fst (getFavorites (Some page) (Some pageSize) s) = Return r /\
    Favorites_totalResults (Some (FavoritesResult.totalResults r))
      = Some (Z.of_nat (length (stored s))).
Proof.
  intros Hp Hps. split; [intros n _; apply parseInt_toString|].
  rewrite getFavorites_eq by done. cbv zeta. eexists. split; [done|].
  cbn [FavoritesResult.totalResults]. unfold Favorites_totalResults.
  cbn [truthy_opt default from_option id].
  by rewrite toString_nonempty, parseInt_toString.
Qed.

Lemma favorites_total_witness :
  exists r,
    fst (getFavorites (Some (Int 1)) (Some (Int 10)) shelf) = Return r /\
    Favorites_totalResults (Some (FavoritesResult.totalResults r)) = Some 2.
Proof.
  destruct (favorites_total_read_back shelf (Int 1) (Int 10) eq_refl eq_refl)
    as (_ & r & Hr & Ht).
  exists r. split; [exact Hr | exact Ht].
Defined.

(** X14.  For a total that the provider prints as a decimal integer [n], the
    search hook asks for the page after the [k] fetched ones exactly when
    [k * 10 < n]; so it stops after [ceil(n / 10)] pages and never asks for a
    second page when the total is zero or negative. *)
Theorem search_scroll_stops (n : Z) (k : nat) :
  getNextPageParam (Some (toString n)) k
  = if Z.of_nat k * 10 <? n then Some (Z.of_nat k + 1) else None.
Proof.
  unfold getNextPageParam. cbn [default from_option id].
  rewrite parseInt_toString. cbn [fmap option_fmap option_map].
  by rewrite lt_ceil_div.
Qed.

(** ** The controller and the favorites hook *)

Lemma try_catch_rethrow {A} (body : M A) (s : State) :
  try_catch body (fun error => throw error) s = body s.
Proof.
  unfold try_catch, throw. by destruct (body s) as [[a|e] s'].
Qed.

Lemma or_one_falsy (page : option number) :
  match page with Some n => number_truthy n = false | None => True end ->
  or_one page = Int 1.
Proof. destruct page as [n|]; [|done]. simpl. by intros ->. Qed.

Lemma Controller_getFavorites_eq (page : option number) (s : State) :
  Controller.getFavorites page s
  = getFavorites (Some (or_one page)) None s.
Proof. unfold Controller.getFavorites. apply try_catch_rethrow. Qed.

(** X15.  Listing through the controller.  A page that is missing, [0] or
    [NaN] is served as page 1.  The page size is always 10: a served page
    holds the records at the indices from [(page - 1) * 10] up to
    [page * 10], at most 10 of them, and [totalPages] is the least [t] with
    [t * 10 >= totalItems].  A page that is negative, fractional or infinite
    is rejected with the 400 exception and the state is untouched. *)
Theorem controller_listing (page : option number) (s : State) :
  (match page with Some n => number_truthy n = false | None => True end ->
   Controller.getFavorites page s = Controller.getFavorites (Some (Int 1)) s) /\
  (positive_integer (or_one page) = true ->
   exists r,
     Controller.getFavorites page s = (Return r, snd (loadFavorites s)) /\
     FavoritesResult.favorites r = listed (int_value (or_one page)) 10 s /\
     0 <= FavoritesResult.count r <= 10 /\
     (FavoritesResult.totalPages r - 1) * 10
       < Z.of_nat (length (stored s)) <= FavoritesResult.totalPages r * 10) /\
  (positive_integer (or_one page) = false ->
   Controller.getFavorites page s = (Throw InvalidPage, s)).
Proof.
  rewrite !Controller_getFavorites_eq. split; [|split].
  - intros H. by rewrite (or_one_falsy page H).
  - intros Hp. pose proof (positive_integer_value _ Hp) as Hp1.
    rewrite getFavorites_eq by done. cbn [default from_option id]. cbv zeta.
    change (int_value (Int 10)) with 10. eexists. split; [done|].
    cbn [FavoritesResult.favorites FavoritesResult.count FavoritesResult.totalPages].
    split; [by rewrite listed_eq by lia|].
    split; [rewrite count_window by lia; lia|].
    apply ceil_div_bounds. lia.
  - intros Hp. by apply getFavorites_invalid_page.
Qed.

Lemma controller_listing_witness :
  Controller.getFavorites (Some (Int 0)) shelf
  = Controller.getFavorites (Some (Int 1)) shelf /\
  Controller.getFavorites (Some (Int (-1))) shelf = (Throw InvalidPage, shelf).
Proof.
  destruct (controller_listing (Some (Int 0)) shelf) as (H1 & _).
  destruct (controller_listing (Some (Int (-1))) shelf) as (_ & _ & H2).
  split; [apply H1; reflexivity | apply H2; reflexivity].
Defined.

(** X16.  Scrolling the favorites.  After [k >= 1] pages have been fetched
    through the controller, the last of them being page [k], the favorites
    hook asks for page [k + 1] exactly when more than [k * 10] records are
    stored; in particular it never asks for a second page of an empty
    collection. *)
Theorem favorites_scroll (s : State) (k : nat) :
  (1 <= k)%nat ->
  exists lastPage,
    fst (Controller.getFavorites (Some (Int (Z.of_nat k))) s) = Return lastPage /\
    UseFavorites.getNextPageParam (FavoritesResult.totalPages lastPage) k
    = if Z.of_nat k * 10 <? Z.of_nat (length (stored s))
      then Some (Z.of_nat k + 1) else None.
Proof.
  intros Hk. rewrite Controller_getFavorites_eq.
  assert (or_one (Some (Int (Z.of_nat k))) = Int (Z.of_nat k)) as ->.
  { unfold or_one, Int, number_truthy. simpl.
    destruct (Z.of_nat k =? 0) eqn:E; [apply Z.eqb_eq in E; lia | done]. }
  rewrite getFavorites_eq; cbn [default from_option id];
    [|apply positive_integer_Int; lia | done].
  cbv zeta. eexists. split; [done|].
  cbn [FavoritesResult.totalPages]. unfold UseFavorites.getNextPageParam.
  change (int_value (Int 10)) with 10. by rewrite lt_ceil_div.
Qed.

Lemma favorites_scroll_witness :
  exists lastPage,
    fst (Controller.getFavorites (Some (Int 1)) shelf) = Return lastPage /\
    UseFavorites.getNextPageParam (FavoritesResult.totalPages lastPage) 1 = None.
Proof.
  destruct (favorites_scroll shelf 1) as (lastPage & H1 & H2); [lia|].
  exists lastPage. split; [exact H1 | exact H2].
Defined.

(** ** Ids accepted by the DTO *)

Lemma trimStart_id (s : jsstring) :
  Forall (fun c => is_whitespace c = false) s -> trimStart s = s.
Proof. intros [|c s' Hc _]; [done|]. simpl. by rewrite Hc. Qed.

Lemma trim_id (s : jsstring) :
  Forall (fun c => is_whitespace c = false) s -> trim s = s.
Proof.
  intros H. unfold trim, trimEnd. rewrite (trimStart_id s H).
  rewrite trimStart_id; [apply reverse_involutive|].
  by apply Forall_reverse.
Qed.

Lemma no_surrogate_encodable (s : jsstring) :
  Forall (fun c => (c < 55296)%N) s -> has_lone_surrogate s = false.
Proof.
  induction 1 as [|c s Hc _ IH]; [done|]. simpl.
  unfold is_high_surrogate, is_low_surrogate.
  destruct (55296 <=? c)%N eqn:E1; [apply N.leb_le in E1; lia|].
  destruct (56320 <=? c)%N eqn:E2; [apply N.leb_le in E2; lia|].
  done.
Qed.

Lemma digit_plain (c : N) :
  is_digit c = true -> is_whitespace c = false /\ (c < 55296)%N.
Proof.
  unfold is_digit. intros [H1 H2]%andb_true_iff.
  apply N.leb_le in H1, H2. split; [|lia].
  unfold is_whitespace.
  repeat match goal with
         | |- context [(?a <=? ?b)%N] =>
             destruct (N.leb_spec a b); try lia
         | |- context [(?a =? ?b)%N] =>
             destruct (N.eqb_spec a b); try lia
         end; done.
Qed.

(** X17.  An id that the pattern of [MovieDto] accepts ([tt] and seven or
    eight digits) passes every guard of the service: it is not empty, not
    blank, unchanged by [trim], and can be percent-encoded; so
    [addToFavorites] never answers "Invalid movie data" for a record with
    such an id and [removeFromFavorites] never answers "Movie ID is required"
    for it. *)
Theorem dto_id_passes_guards (id : jsstring) (s : State) :
  matches_imdbID id = true ->
  truthy id = true /\
  forallb is_whitespace id = false /\
  trim id = id /\
  has_lone_surrogate id = false /\
  (length id = 9 \/ length id = 10)%nat /\
  fst (removeFromFavorites id s) <> Throw MovieIdRequired /\
  (forall record : MovieDto, imdbID record = id ->
     fst (addToFavorites (Some record) s) <> Throw InvalidMovieData).
Proof.
  intros H. unfold matches_imdbID in H.
  destruct id as [|c1 [|c2 digits]]; [done | by repeat case_match|].
  assert (c1 = 116%N /\ c2 = 116%N /\ forallb is_digit digits = true /\
          (length digits = 7 \/ length digits = 8)%nat)
    as (-> & -> & Hd & Hlen).
  { repeat case_match; try done.
    apply andb_true_iff in H as [Hd Hl]. apply orb_true_iff in Hl.
    repeat split; [done|].
    destruct Hl as [Hl|Hl]; apply Nat.eqb_eq in Hl; auto. }
  clear H.
  assert (Forall (fun c => is_whitespace c = false /\ (c < 55296)%N)
                 (116%N :: 116%N :: digits)) as Hall.
  { repeat constructor; try done.
    apply Forall_forall. intros c Hc. apply digit_plain.
    rewrite forallb_forall in Hd. apply Hd. by apply list_elem_of_In. }
  assert (forallb is_whitespace (116%N :: 116%N :: digits) = false) as Hnb
    by done.
  split; [done|]. split; [done|]. split.
  { apply trim_id. eapply Forall_impl; [exact Hall|]. by intros c [? _]. }
  split.
  { apply no_surrogate_encodable. eapply Forall_impl; [exact Hall|].
    by intros c [_ ?]. }
  split; [simpl; lia|]. split.
  - rewrite removeFromFavorites_eq by done. cbv zeta.
    destruct (findIndex _ (stored s) =? -1); [done|].
    by destruct (writable s).
  - intros record Hrec. rewrite addToFavorites_eq by by rewrite Hrec.
    destruct (some _ (stored s)); [done|]. by destruct (writable s).
Qed.

Lemma dto_id_witness :
  trim (js "tt1375666") = js "tt1375666" /\
  fst (removeFromFavorites (js "tt1375666") no_file) <> Throw MovieIdRequired.
Proof.
  destruct (dto_id_passes_guards (js "tt1375666") no_file eq_refl)
    as (_ & _ & H1 & _ & _ & H2 & _).
  split; [exact H1 | exact H2].
Defined.

(** ** Answered requests, and what can change the stored collection *)

Lemma or_else_truthy (value : option jsstring) :
  truthy (or_else value (js "0")) = true.
Proof. by destruct value as [[|c t]|]. Qed.

(** X18.  Once the guards have passed and the provider has answered with
    JSON of the declared shape [OmdbSearchResponse] (the only answers the
    model represents), the tagged search returns: as many items as it lists
    ([count]), none when the answer carries an error message (even beside
    [Response] other than [False] and a list of movies) or has no [Search]
    field, and a total that is never the empty text (["0"] stands in for a
    missing or empty one).  An answer of another shape is not covered: the
    program can throw on it. *)
Theorem answered_search_returns (title : jsstring) (page : option number)
    (data : Omdb.SearchResponse) (s : State) :
  forallb is_whitespace title = false ->
  positive_integer (default (Int 1) page) = true ->
  has_lone_surrogate (trim title) = false ->
  exists r,
    getMovieByTitle title page (Return data) s = (Return r, s) /\
    SearchResult.count r = Z.of_nat (length (SearchResult.movies r)) /\
    truthy (SearchResult.totalResults r) = true /\
    (truthy_opt (Omdb.Error data) = true ->
     SearchResult.movies r = [] /\ SearchResult.totalResults r = js "0") /\
    (Omdb.Search data = None -> SearchResult.movies r = []) /\
    (length (SearchResult.movies r) <= length (default [] (Omdb.Search data)))%nat.
Proof.
  intros Ht Hp Hs. rewrite getMovieByTitle_eq, searchMovies_answered by done.
  destruct (str_eq (Omdb.Response data) (js "False")) eqn:Hr;
    destruct (truthy_opt (Omdb.Error data)) eqn:He; cbn [orb];
    eexists; (split; [done|]);
    cbn [SearchResult.movies SearchResult.count SearchResult.totalResults
         Catalog.movies Catalog.totalResults fmap list_fmap];
    repeat split; try done; try (simpl; lia).
  - apply or_else_truthy.
  - by intros ->.
  - by rewrite length_fmap.
Qed.

Lemma answered_search_witness :
  exists r,
    getMovieByTitle (js "zzzz") None (Return omdb_nothing) shelf = (Return r, shelf) /\
    SearchResult.movies r = [].
Proof.
  destruct (answered_search_returns (js "zzzz") None omdb_nothing shelf
              eq_refl eq_refl eq_refl)
    as (r & Hr & _ & _ & He & _).
  exists r. split; [exact Hr|]. apply He. reflexivity.
Defined.

(** X19.  Only a successful mutation changes the stored collection.  If an
    event of a run (a call of any method with any arguments, or the file
    system changing its mind about writes) leaves a stored collection
    different from the one before, then the event is an [addToFavorites] that
    returned, and the collection grew by that record at the end, or a
    [removeFromFavorites] that returned.  Listings, searches, rejected calls
    and failed writes leave it as it was. *)
Theorem stored_changes_only_by_mutation (ev : Event) (s : State) :
  stored (step ev s) <> stored s ->
  (exists record,
     ev = CallAdd (Some record) /\
     fst (addToFavorites (Some record) s) = Return (js "Movie added to favorites") /\
     stored (step ev s) = stored s ++ [record]) \/
  (exists movieId,
     ev = CallRemove movieId /\
     fst (removeFromFavorites movieId s)
       = Return (js "Movie removed from favorites")).
Proof.
  intros Hch.
  destruct ev as [[m|]|movieId|page pageSize|title page axios_get|b];
    cbn [step] in Hch |- *.
  - left. exists m. split; [done|]. revert Hch.
    destruct (truthy (imdbID m)) eqn:Hid.
    2:{ by rewrite addToFavorites_empty_id. }
    rewrite addToFavorites_eq by done.
    destruct (some _ (stored s)).
    { cbn [snd]. by rewrite stored_loadFavorites. }
    destruct (writable s); [done|]. cbn [snd]. by unfold stored at 1.
  - by rewrite addToFavorites_missing in Hch.
  - right. exists movieId. split; [done|]. revert Hch.
    destruct (forallb is_whitespace movieId) eqn:Hid.
    { by rewrite removeFromFavorites_blank. }
    rewrite removeFromFavorites_eq by done. cbv zeta.
    destruct (findIndex _ (stored s) =? -1).
    { cbn [snd]. by rewrite stored_loadFavorites. }
    destruct (writable s); [done|]. cbn [snd]. by unfold stored at 1.
  - exfalso. apply Hch.
    destruct (positive_integer (default (Int 1) page)) eqn:Hp.
    2:{ by rewrite getFavorites_invalid_page. }
    destruct (positive_integer (default (Int 10) pageSize)) eqn:Hps.
    2:{ by rewrite getFavorites_invalid_pageSize. }
    rewrite getFavorites_eq by done. apply stored_loadFavorites.
  - by rewrite getMovieByTitle_eq in Hch.
  - done.
Qed.

Lemma stored_changes_witness :
  (exists record,
     CallAdd (Some inception) = CallAdd (Some record) /\
     fst (addToFavorites (Some record) (fresh true))
       = Return (js "Movie added to favorites") /\
     stored (step (CallAdd (Some inception)) (fresh true))
       = stored (fresh true) ++ [record]) \/
  (exists movieId,
     CallAdd (Some inception) = CallRemove movieId /\
     fst (removeFromFavorites movieId (fresh true))
       = Return (js "Movie removed from favorites")).
Proof.
  apply (stored_changes_only_by_mutation (CallAdd (Some inception)) (fresh true)).
  vm_compute. discriminate.
Defined.
